(** * WurstCore (train_c_xl.py): a shallow embedding of the Stage C training core

  The embedding follows [src/train_c_xl.py].  Python objects that the trainer
  only calls into (autograd, optimizers, schedulers, the distributed wrapper)
  are opaque: a call on one of them is recorded, in order, in the trace of
  the world the program runs in.  What the trainer owns is modelled
  concretely: [self.info.total_steps], the local variables of
  [backward_pass], the configuration, the checkpoint payloads and the mode
  flags of the models it builds.  Tensor arithmetic is idealised over the
  rationals. *)

From Stdlib Require Import QArith Qcanon.
From stdpp Require Import base gmap strings list numbers.

Set Warnings "-register-all".
Open Scope Z_scope.

(** ** Python: exceptions, results and a state-and-exception monad *)

Module Py.

Inductive exn :=
| UnboundLocalError (name : string)
| ValueError (msg : string)
| KeyError (key : string)
| RuntimeError (msg : string)
| FileNotFoundError (path : string)
| TypeError (msg : string)
| StopIteration.

Inductive result (A : Type) :=
| Ok (a : A)
| Raise (e : exn).
Arguments Ok {A} a.
Arguments Raise {A} e.


(** A computation over a store [S]: whatever it did to the store before an
    exception was raised stays done, as in Python. *)
Definition M (S A : Type) : Type := S -> S * result A.

Definition ret {S A} (a : A) : M S A := fun s => (s, Ok a).
Definition raise {S A} (e : exn) : M S A := fun s => (s, Raise e).
Definition bind {S A B} (c : M S A) (k : A -> M S B) : M S B :=
  fun s => match c s with
           | (s', Ok a) => k a s'
           | (s', Raise e) => (s', Raise e)
           end.
Definition lift {S A} (r : result A) : M S A := fun s => (s, r).
Definition get {S} : M S S := fun s => (s, Ok s).
Definition modify {S} (f : S -> S) : M S unit := fun s => (f s, Ok tt).

(** Computations that leave the store as it is. *)
Definition pure {S A} (c : M S A) : Prop := forall s, fst (c s) = s.

(** [with cm: body]: the exit of the context manager runs whether or not the
    body raised, and the body's outcome is the outcome of the statement. *)
Definition with_ {S A} (enter exit : M S unit) (body : M S A) : M S A :=
  fun s => match enter s with
           | (s1, Raise e) => (s1, Raise e)
           | (s1, Ok _) =>
               match body s1 with
               | (s2, r) => (fst (exit s2), r)
               end
           end.

(** [for x in xs: body x] *)
Fixpoint for_ {S A} (xs : list A) (body : A -> M S unit) : M S unit :=
  match xs with
  | [] => ret tt
  | x :: xs' => bind (body x) (fun _ => for_ xs' body)
  end.

(** A [dict] with string keys, in insertion order. *)
Definition dict (A : Type) : Type := list (string * A).

Definition keys {A} (d : dict A) : list string := map fst d.

Fixpoint lookup_key {A} (k : string) (d : dict A) : option A :=
  match d with
  | [] => None
  | (k', v) :: d' => if String.eqb k k' then Some v else lookup_key k d'
  end.

(** [[d[k] for k in d]]: what a loop over the keys reads, in order. *)
Definition values {A} (d : dict A) : list A :=
  omap (fun k => lookup_key k d) (keys d).

(** [d[k]] *)
Definition getitem {S A} (d : dict A) (k : string) : M S A :=
  match lookup_key k d with
  | Some v => ret v
  | None => raise (KeyError k)
  end.

(** Reading a local variable: a name the function assigns somewhere is
    local to it, and reading it before any assignment ran raises. *)
Definition read_local {S A} (name : string) (v : option A) : M S A :=
  match v with
  | Some a => ret a
  | None => raise (UnboundLocalError name)
  end.

End Py.

Import Py.

Notation "'let!' x ':=' c 'in' k" := (bind c (fun x => k))
  (at level 10, x name, c at level 100, k at level 200).
Notation "c ';;' k" := (bind c (fun _ => k))
  (at level 100, k at level 200, right associativity).

(** ** The training step: [forward_pass] hands a loss to [backward_pass] *)

Module Train.

(** References to objects of the numeric backend. *)
Inductive tensor :=
| Loss (id : N)              (* a loss computed by a forward pass *)
| TotalNorm (call : nat).    (* what the [call]-th recorded call, a clip, returned *)

Inductive module_ref := ModuleRef (id : N).
Inductive optimizer_ref := OptimizerRef (id : N).
Inductive scheduler_ref := SchedulerRef (id : N).

(** Calls into the backend, as the trainer issues them. *)
Inductive event :=
| Backward (loss : tensor)
| ClipGradNorm (params_of : module_ref) (max_norm : Qc)
| OptimizerStep (o : optimizer_ref)
| SchedulerStep (s : scheduler_ref)
| ZeroGrad (o : optimizer_ref) (set_to_none : bool)
| NoSyncEnter (m : module_ref)
| NoSyncExit (m : module_ref).

Record world := World {
  total_steps : Z;          (* self.info.total_steps *)
  trace : list event;       (* oldest call first *)
}.

Definition emit (e : event) : M world unit :=
  modify (fun w => World (total_steps w) (trace w ++ [e])).

(** The three bundles as [backward_pass] uses them: the generator of the
    models, and what [to_dict()] gives for the optimizers and the schedulers. *)
Record ModelsDTO := { generator : module_ref }.
Record OptimizersDTO := { optimizers_to_dict : dict optimizer_ref }.
Record SchedulersDTO := { schedulers_to_dict : dict scheduler_ref }.

(** [loss.backward()] *)
Definition backward (loss : tensor) : M world unit := emit (Backward loss).

(** [nn.utils.clip_grad_norm_(m.parameters(), max_norm)], which returns the
    total norm it measured. *)
Definition clip_grad_norm_ (m : module_ref) (max_norm : Qc) : M world tensor :=
  let! w := get in
  emit (ClipGradNorm m max_norm) ;;
  ret (TotalNorm (length (trace w))).

(** [with m.no_sync(): body].  The generator is taken to be a module that
    has [no_sync], as the distributed wrappers do. *)
Definition no_sync {A} (m : module_ref) (body : M world A) : M world A :=
  with_ (emit (NoSyncEnter m)) (emit (NoSyncExit m)) body.

(** [self.info.total_steps += 1] *)
Definition incr_total_steps : M world unit :=
  modify (fun w => World (total_steps w + 1) (trace w)).

(** The body of the [if update: ... else: ...] statement; its value is the
    binding of the local [grad_norm] when the statement is left. *)
Definition backward_pass_branches (update : bool) (loss_adjusted : tensor)
    (models : ModelsDTO) (optimizers : OptimizersDTO) (schedulers : SchedulersDTO)
    : M world (option tensor) :=
  if update then
    backward loss_adjusted ;;
    let! grad_norm := clip_grad_norm_ (generator models) 1%Qc in
    let optimizers_dict := optimizers_to_dict optimizers in
    for_ (keys optimizers_dict) (fun k =>
      let! o := getitem optimizers_dict k in emit (OptimizerStep o)) ;;
    let schedulers_dict := schedulers_to_dict schedulers in
    for_ (keys schedulers_dict) (fun k =>
      let! s := getitem schedulers_dict k in emit (SchedulerStep s)) ;;
    for_ (keys optimizers_dict) (fun k =>
      let! o := getitem optimizers_dict k in emit (ZeroGrad o true)) ;;
    incr_total_steps ;;
    ret (Some grad_norm)
  else
    no_sync (generator models) (backward loss_adjusted) ;;
    ret None.

Definition backward_pass (update : bool) (loss loss_adjusted : tensor)
    (models : ModelsDTO) (optimizers : OptimizersDTO) (schedulers : SchedulersDTO)
    : M world tensor :=
  let! grad_norm :=
    backward_pass_branches update loss_adjusted models optimizers schedulers in
  read_local "grad_norm" grad_norm.

(** The calls one [backward_pass] issues. *)
Definition calls_of (u : bool) (loss_adjusted : tensor) (models : ModelsDTO)
    (optimizers : OptimizersDTO) (schedulers : SchedulersDTO) : list event :=
  if u then
    [Backward loss_adjusted; ClipGradNorm (generator models) 1%Qc]
    ++ map OptimizerStep (values (optimizers_to_dict optimizers))
    ++ map SchedulerStep (values (schedulers_to_dict schedulers))
    ++ map (fun o => ZeroGrad o true) (values (optimizers_to_dict optimizers))
  else
    [NoSyncEnter (generator models); Backward loss_adjusted;
     NoSyncExit (generator models)].

(** *** Reading a trace *)



(** *** An accumulation window *)

(** One micro-batch: the [update] flag and the loss its forward pass gave. *)
Record micro_batch := { update : bool; loss : tensor; loss_adjusted : tensor }.

(** Modelled from the spec: the loop that calls [backward_pass] is in
    [train_templates], which is not part of the sources.  This is the world a
    sequence of [backward_pass] calls leaves behind, each call starting where
    the previous one stopped, whatever its outcome was. *)
Fixpoint after_calls (mbs : list micro_batch) (models : ModelsDTO)
    (optimizers : OptimizersDTO) (schedulers : SchedulersDTO) (w : world) : world :=
  match mbs with
  | [] => w
  | mb :: mbs' =>
      after_calls mbs' models optimizers schedulers
        (fst (backward_pass (update mb) (loss mb) (loss_adjusted mb)
                models optimizers schedulers w))
  end.

(** The calls of a sequence of micro-batches, one [backward_pass] after the
    other. *)
Definition calls_of_all (mbs : list micro_batch) (models : ModelsDTO)
    (optimizers : OptimizersDTO) (schedulers : SchedulersDTO) : list event :=
  flat_map (fun mb => calls_of (update mb) (loss_adjusted mb) models optimizers
                        schedulers) mbs.


End Train.

(** ** Configuration *)

Module Config.

(** [WurstCore.ConfigDTO].  The last four fields are inherited from the
    [ConfigDTO] classes of [TrainingCore], [DataCore] and [WarpCore];
    [None] is Python's [None]. *)
Record ConfigDTO := {
  lr : Qc;
  warmup_updates : Z;
  model_version : string;
  clip_image_model_name : string;
  clip_text_model_name : string;
  effnet_checkpoint_path : string;
  previewer_checkpoint_path : string;
  generator_checkpoint_path : option string;
  ema_start_iters : option Z;
  use_fsdp : bool;
  grad_accum_steps : Z;
  image_size : Z;
}.

End Config.

(** ** The warmup scheduler and [setup_schedulers] *)

Module Warmup.

Import Config.

(** The scheduler object: the optimizer it drives, its two constructor
    arguments and its position counter. *)
Record scheduler := Scheduler {
  optimizer : Train.optimizer_ref;
  multiplier : Qc;
  total_epoch : Z;
  last_epoch : Z;
}.

(** Modelled from the spec: [GradualWarmupScheduler] comes from the
    [warmup_scheduler] package, which is not part of the sources.  It is a
    gradual (linear) warmup policy over [total_epoch] steps with an internal
    position counter: a fresh scheduler stands at position 0. *)
Definition GradualWarmupScheduler (o : Train.optimizer_ref) (multiplier : Qc)
    (total_epoch : Z) : scheduler :=
  Scheduler o multiplier total_epoch 0.

(** Modelled from the spec: [scheduler.step()] advances the position by one. *)
Definition step (s : scheduler) : scheduler :=
  Scheduler (optimizer s) (multiplier s) (total_epoch s) (last_epoch s + 1).

(** Modelled from the spec: the factor the scheduler applies to the base
    learning rate at its position.  It grows linearly with the position over
    the [total_epoch] warmup steps and is [multiplier] from then on; there is
    no factor ([None]) where the ramp would divide by zero. *)
Definition effective_multiplier (s : scheduler) : option Qc :=
  if total_epoch s <? last_epoch s then Some (multiplier s)
  else if total_epoch s =? 0 then None
  else Some (Q2Qc (inject_Z (last_epoch s)) / Q2Qc (inject_Z (total_epoch s)))%Qc.

(** [scheduler.last_epoch = v] *)
Definition set_last_epoch (s : scheduler) (v : Z) : scheduler :=
  Scheduler (optimizer s) (multiplier s) (total_epoch s) v.

(** [TrainingCore.OptimizersDTO] and [WurstCore.SchedulersDTO]: one field,
    [generator]. *)
Record OptimizersDTO := { optimizers_generator : Train.optimizer_ref }.
Record SchedulersDTO := { schedulers_generator : option scheduler }.

Definition setup_schedulers (config : ConfigDTO) (optimizers : OptimizersDTO)
    : M Train.world SchedulersDTO :=
  let scheduler :=
    GradualWarmupScheduler (optimizers_generator optimizers) 1%Qc
      (warmup_updates config) in
  let! w := get in
  let scheduler := set_last_epoch scheduler (Train.total_steps w) in
  ret {| schedulers_generator := Some scheduler |}.

End Warmup.

(** ** Modules, checkpoints and [setup_models] *)

Module Torch.

Import Config.

(** What [torch.load] can return: a tensor, a number, or a mapping from
    names to such values. *)
Inductive pyobj :=
| PTensor (id : N)
| PInt (z : Z)
| PDict (d : gmap string pyobj).

(** The block classes named in the wrap policy. *)
Inductive block := ResBlock | AttnBlock | TimestepBlock | FeedForwardBlock.

(** The keyword arguments of [StageC(...)]; [None] is a keyword the call
    leaves to the default of [modules/stage_c.py]. *)
Record StageC_kwargs := {
  c_cond : option Z;
  c_hidden : option (list Z);
  nhead : option (list Z);
  blocks : option (list (list Z));
  switch_level : option (list bool);
}.

Inductive architecture :=
| EfficientNetEncoder
| Previewer
| StageC (kwargs : StageC_kwargs)
| CLIPTextModel (name : string)
| CLIPTextProjection (name : string)
| CLIPVisionModelWithProjection (name : string).

(** The calls a module has received, oldest first; [OpLoad] is any call that
    puts stored weights into it. *)
Inductive op :=
| OpTo (device : N)
| OpLoad
| OpEval
| OpRequiresGrad (b : bool).

(** An [nn.Module]: its parameters by name, its mode flag, whether its
    parameters track gradients, where it lives, and what was called on it. *)
Record nn_module := NNModule {
  arch : architecture;
  weights : gmap string N;
  training : bool;
  requires_grad : bool;
  device_of : option N;
  history : list op;
}.

(** A module as the bundle holds it: as it is, or inside the sharding
    wrapper. *)
Inductive model :=
| Plain (m : nn_module)
| FSDP (m : nn_module) (auto_wrap_policy : list block) (device_id : N).

Definition network (m : model) : nn_module :=
  match m with Plain n => n | FSDP n _ _ => n end.

(** What the process finds around it. *)
Record environment := {
  device : N;                                   (* self.device *)
  files : gmap string pyobj;                    (* torch.load, by path *)
  experiment_checkpoints : gmap string pyobj;   (* load_model, by model id *)
  init_weights : architecture -> gmap string N; (* the parameters a constructor makes *)
}.


(** [Cls(...)]: a new module is in training mode and its parameters track
    gradients. *)
Definition new_module (env : environment) (a : architecture) : nn_module :=
  NNModule a (init_weights env a) true true None [].

(** [Cls.from_pretrained(name)]: the stored weights are loaded and the module
    comes back in evaluation mode. *)
Definition from_pretrained (env : environment) (a : architecture) : nn_module :=
  NNModule a (init_weights env a) false true None [OpLoad].

(** [m.to(device)] *)
Definition to_ (m : nn_module) (d : N) : nn_module :=
  NNModule (arch m) (weights m) (training m) (requires_grad m) (Some d)
    (history m ++ [OpTo d]).

(** [m.eval()] *)
Definition eval_ (m : nn_module) : nn_module :=
  NNModule (arch m) (weights m) false (requires_grad m) (device_of m)
    (history m ++ [OpEval]).

(** [m.requires_grad_(b)] *)
Definition requires_grad_ (m : nn_module) (b : bool) : nn_module :=
  NNModule (arch m) (weights m) (training m) b (device_of m)
    (history m ++ [OpRequiresGrad b]).

(** [m.state_dict()] *)
Definition state_dict (m : nn_module) : pyobj := PDict (PTensor <$> weights m).

Definition as_tensor (v : pyobj) : option N :=
  match v with PTensor i => Some i | _ => None end.

Definition tensors_of (d : gmap string pyobj) : gmap string N := omap as_tensor d.

(** [m.load_state_dict(sd)], strict as by default: [sd] has to map exactly
    the parameter names of [m] to tensors.  Tensor shapes are not modelled. *)
Definition load_state_dict (m : nn_module) (sd : pyobj) : result nn_module :=
  match sd with
  | PDict d =>
      if decide (dom d = dom (weights m) /\ dom (tensors_of d) = dom d)
      then Ok (NNModule (arch m) (tensors_of d) (training m) (requires_grad m)
                 (device_of m) (history m ++ [OpLoad]))
      else Raise (RuntimeError "Error(s) in loading state_dict")
  | _ => Raise (TypeError "Expected state_dict to be dict-like")
  end.

(** [torch.load(path, map_location=self.device)] *)
Definition torch_load (env : environment) (path : string) : result pyobj :=
  match files env !! path with
  | Some payload => Ok payload
  | None => Raise (FileNotFoundError path)
  end.

(** [key not in obj] *)
Definition not_in (key : string) (obj : pyobj) : result bool :=
  match obj with
  | PDict d => Ok (bool_decide (d !! key = None))
  | _ => Raise (TypeError "argument is not iterable")
  end.

(** [obj[key]] *)
Definition subscript (obj : pyobj) (key : string) : result pyobj :=
  match obj with
  | PDict d =>
      match d !! key with
      | Some v => Ok v
      | None => Raise (KeyError key)
      end
  | _ => Raise (TypeError "object is not subscriptable")
  end.

(** [ckpt if 'state_dict' not in ckpt else ckpt['state_dict']] *)
Definition state_dict_of_checkpoint (ckpt : pyobj) : result pyobj :=
  match not_in "state_dict" ckpt with
  | Ok true => Ok ckpt
  | Ok false => subscript ckpt "state_dict"
  | Raise e => Raise e
  end.

(** Modelled from the spec: [WarpCore.load_model] is not part of the sources.
    It restores a model's weights from the checkpoint kept under its logical
    name, when there is one, and returns the model. *)
Definition load_model (env : environment) (m : nn_module) (model_id : string)
    : result nn_module :=
  match experiment_checkpoints env !! model_id with
  | Some ckpt => load_state_dict m ckpt
  | None => Ok m
  end.

End Torch.

Module Setup.

Import Config Torch.

(** [WurstCore.ModelsDTO], with the fields it inherits. *)
Record ModelsDTO := {
  effnet : nn_module;
  previewer : nn_module;
  generator : model;
  generator_ema : option model;
  clip_tokenizer : string;
  clip_text_model : nn_module;
  clip_text_model_proj : nn_module;
  clip_image_model : nn_module;
}.

Definition is_not_None {A} (o : option A) : bool :=
  match o with Some _ => true | None => false end.

(** [StageC(switch_level=[True])] and the call made for the '1B' variant. *)
Definition StageC_3_6B : StageC_kwargs :=
  {| c_cond := None; c_hidden := None; nhead := None; blocks := None;
     switch_level := Some [true] |}.

Definition StageC_1B : StageC_kwargs :=
  {| c_cond := Some 1536; c_hidden := Some [1536; 1536]; nhead := Some [24; 24];
     blocks := Some [[4; 12]; [12; 4]]; switch_level := Some [true] |}.

(** Lines 122-126, [# EfficientNet encoder]. *)
Definition setup_effnet (env : environment) (config : ConfigDTO)
    : M Train.world nn_module :=
  let effnet := to_ (new_module env EfficientNetEncoder) (device env) in
  let! effnet_checkpoint := lift (torch_load env (effnet_checkpoint_path config)) in
  let! sd := lift (state_dict_of_checkpoint effnet_checkpoint) in
  let! effnet := lift (load_state_dict effnet sd) in
  ret (requires_grad_ (eval_ effnet) false).

(** Lines 129-133, [# Previewer]. *)
Definition setup_previewer (env : environment) (config : ConfigDTO)
    : M Train.world nn_module :=
  let previewer := to_ (new_module env Previewer) (device env) in
  let! previewer_checkpoint :=
    lift (torch_load env (previewer_checkpoint_path config)) in
  let! sd := lift (state_dict_of_checkpoint previewer_checkpoint) in
  let! previewer := lift (load_state_dict previewer sd) in
  ret (requires_grad_ (eval_ previewer) false).

(** Lines 136-149: the [if]/[elif]/[else] on [model_version]. *)
Definition new_generators (env : environment) (config : ConfigDTO)
    : M Train.world (nn_module * option nn_module) :=
  if String.eqb (model_version config) "3.6B" then
    let generator := to_ (new_module env (StageC StageC_3_6B)) (device env) in
    let generator_ema :=
      if is_not_None (ema_start_iters config)
      then Some (to_ (new_module env (StageC StageC_3_6B)) (device env))
      else None in
    ret (generator, generator_ema)
  else if String.eqb (model_version config) "1B" then
    let generator := to_ (new_module env (StageC StageC_1B)) (device env) in
    let generator_ema :=
      if is_not_None (ema_start_iters config)
      then Some (to_ (new_module env (StageC StageC_1B)) (device env))
      else None in
    ret (generator, generator_ema)
  else
    raise (ValueError ("Unknown model version " ++ model_version config)).

(** Lines 151-153: the resume checkpoint, then [load_model]. *)
Definition restore_generator (env : environment) (config : ConfigDTO)
    (generator : nn_module) : M Train.world nn_module :=
  let! generator :=
    match generator_checkpoint_path config with
    | Some path =>
        let! ckpt := lift (torch_load env path) in
        lift (load_state_dict generator ckpt)
    | None => ret generator
    end in
  lift (load_model env generator "generator").

(** Lines 155-158: the shadow takes the generator's weights, then its own
    checkpoint if there is one, and is frozen. *)
Definition restore_generator_ema (env : environment) (generator : nn_module)
    (generator_ema : option nn_module) : M Train.world (option nn_module) :=
  match generator_ema with
  | Some generator_ema =>
      let! generator_ema :=
        lift (load_state_dict generator_ema (state_dict generator)) in
      let! generator_ema := lift (load_model env generator_ema "generator_ema") in
      ret (Some (requires_grad_ (eval_ generator_ema) false))
  | None => ret None
  end.

(** Lines 160-164: [FSDP(m, **self.fsdp_defaults, auto_wrap_policy=...,
    device_id=self.device)]; [fsdp_defaults] belongs to [WarpCore]. *)
Definition wrap_fsdp (env : environment) (config : ConfigDTO)
    (generator : nn_module) (generator_ema : option nn_module)
    : model * option model :=
  if use_fsdp config then
    let fsdp_auto_wrap_policy :=
      [ResBlock; AttnBlock; TimestepBlock; FeedForwardBlock] in
    (FSDP generator fsdp_auto_wrap_policy (device env),
     match generator_ema with
     | Some generator_ema =>
         Some (FSDP generator_ema fsdp_auto_wrap_policy (device env))
     | None => None
     end)
  else
    (Plain generator, option_map Plain generator_ema).

(** [m.to(self.device).eval().requires_grad_(False)] *)
Definition frozen_on (env : environment) (m : nn_module) : nn_module :=
  requires_grad_ (eval_ (to_ m (device env))) false.

Definition setup_models (env : environment) (config : ConfigDTO)
    : M Train.world ModelsDTO :=
  let! effnet := setup_effnet env config in
  let! previewer := setup_previewer env config in
  let! generators := new_generators env config in
  let! generator := restore_generator env config (fst generators) in
  let! generator_ema := restore_generator_ema env generator (snd generators) in
  let wrapped := wrap_fsdp env config generator generator_ema in
  (* CLIP encoders, lines 167-172 *)
  let clip_tokenizer := clip_text_model_name config in
  let clip_text_model :=
    frozen_on env (from_pretrained env (CLIPTextModel (clip_text_model_name config))) in
  let clip_text_model_proj :=
    frozen_on env
      (from_pretrained env (CLIPTextProjection (clip_text_model_name config))) in
  let clip_image_model :=
    frozen_on env
      (from_pretrained env
         (CLIPVisionModelWithProjection (clip_image_model_name config))) in
  ret {| effnet := effnet; previewer := previewer;
         generator := fst wrapped; generator_ema := snd wrapped;
         clip_tokenizer := clip_tokenizer; clip_text_model := clip_text_model;
         clip_text_model_proj := clip_text_model_proj;
         clip_image_model := clip_image_model |}.

(** *** Reading a module's history *)

(** After the last call that loaded weights, both [eval()] and
    [requires_grad_(False)] were called, and nothing undid them.  The two
    flags say whether each is in force at the end of the prefix read so far. *)
Fixpoint enforced (h : list op) (evaluated grad_off : bool) : bool :=
  match h with
  | [] => evaluated && grad_off
  | OpLoad :: h' => enforced h' false false
  | OpEval :: h' => enforced h' true grad_off
  | OpRequiresGrad b :: h' => enforced h' evaluated (negb b)
  | OpTo _ :: h' => enforced h' evaluated grad_off
  end.

Definition frozen (m : nn_module) : bool :=
  negb (training m) && negb (requires_grad m) && enforced (history m) false false.

(** The frozen models of a bundle. *)
Definition frozen_models (models : ModelsDTO) : list nn_module :=
  [effnet models; previewer models]
  ++ match generator_ema models with Some e => [network e] | None => [] end
  ++ [clip_text_model models; clip_text_model_proj models; clip_image_model models].

End Setup.

(** ** [get_conditions] *)

Module Conditions.

(** [bool(x)] for an argument that is [None] or a list. *)
Definition truthy (x : option (list string)) : bool :=
  match x with
  | Some (_ :: _) => true
  | _ => false
  end.

(** [x or y]: [x] when it is truthy, [y] otherwise. *)
Definition or_ (x : option (list string)) (y : list string) : list string :=
  match x with
  | Some l => if truthy x then l else y
  | None => y
  end.

Definition default_return_fields : list string :=
  ["clip_text"; "clip_text_pooled"; "clip_img"]%string.

Section GetConditions.

Variables batch models extras conditions : Type.

(** [DataCore.get_conditions], reached through [super()]; it is defined in
    [train_templates] and is a parameter here. *)
Variable super_get_conditions :
  batch -> models -> extras -> bool -> bool -> bool -> list string -> conditions.

Definition get_conditions (b : batch) (m : models) (e : extras)
    (is_eval is_unconditional eval_image_embeds : bool)
    (return_fields : option (list string)) : conditions :=
  super_get_conditions b m e is_eval is_unconditional eval_image_embeds
    (or_ return_fields default_return_fields).

End GetConditions.

End Conditions.

(** ** The loss of [forward_pass] *)

Module Loss.

Import Config.

(** A 4-dimensional tensor, batch dimension first, with its elements in
    row-major order; a 1-dimensional tensor is the list of its elements. *)
Record tensor4 := Tensor4 {
  shape : nat * nat * nat * nat;
  data : list Qc;
}.

Definition batch_size (t : tensor4) : nat := fst (fst (fst (shape t))).

(** The number of elements of one sample: the product of the other three dimensions. *)
Definition sample_size (t : tensor4) : nat :=
  (snd (fst (fst (shape t))) * snd (fst (shape t)) * snd (shape t))%nat.

Definition well_formed (t : tensor4) : Prop :=
  length (data t) = (batch_size t * sample_size t)%nat.

Definition of_nat (n : nat) : Qc := Q2Qc (inject_Z (Z.of_nat n)).
Definition of_Z (z : Z) : Qc := Q2Qc (inject_Z z).

Definition sum (l : list Qc) : Qc := foldr Qcplus 0%Qc l.

(** [t.mean()] of a 1-dimensional tensor. *)
Definition mean_of (l : list Qc) : Qc := (sum l / of_nat (length l))%Qc.

(** [nn.functional.mse_loss(input, target, reduction='none')]: the squared
    differences, element by element.  Where the two shapes differ the backend
    broadcasts them if it can; that is not modelled and counts as the error. *)
Definition mse_loss_none (input target : tensor4) : result tensor4 :=
  if decide (shape input = shape target)
  then Ok (Tensor4 (shape input)
             (zip_with (fun x y => ((x - y) * (x - y))%Qc) (data input) (data target)))
  else Raise (RuntimeError "The size of tensor a must match the size of tensor b").

(** The first [n] consecutive blocks of [size] elements. *)
Fixpoint chunks (n size : nat) (l : list Qc) : list (list Qc) :=
  match n with
  | O => []
  | S n' => take size l :: chunks n' size (drop size l)
  end.

(** [t.mean(dim=[1, 2, 3])]: one mean per sample. *)
Definition mean_dims_1_2_3 (t : tensor4) : list Qc :=
  map mean_of (chunks (batch_size t) (sample_size t) (data t)).

(** [a * b] for 1-dimensional tensors: element by element, a tensor of one
    element being stretched to the length of the other. *)
Definition mul_1d (a b : list Qc) : result (list Qc) :=
  if decide (length a = length b) then Ok (zip_with Qcmult a b)
  else match a, b with
       | [x], _ => Ok (map (Qcmult x) b)
       | _, [y] => Ok (map (fun x => (x * y)%Qc) a)
       | _, _ =>
           Raise (RuntimeError "The size of tensor a must match the size of tensor b")
       end.

(** What [extras.gdf.diffuse] returns. *)
Record diffused := {
  noised : tensor4;
  noise : tensor4;
  target : tensor4;
  logSNR : list Qc;
  noise_cond : list Qc;
  loss_weight : list Qc;
}.

Section ForwardPass.

(** The collaborators of [forward_pass] are parameters: the batches and what
    reads them, the frozen encoder, the diffusion framework (with the noise it
    draws) and the generator network. *)
Variables batch extras conditions : Type.
Variable super_get_conditions :
  batch -> Setup.ModelsDTO -> extras -> bool -> bool -> bool -> list string
  -> conditions.
Variable images : batch -> tensor4.
Variable effnet_preprocess : extras -> tensor4 -> tensor4.
Variable gdf_diffuse : extras -> tensor4 -> diffused.
Variable call : Torch.nn_module -> tensor4 -> tensor4.
Variable call_generator :
  Torch.model -> tensor4 -> list Qc -> conditions -> tensor4.

(** [next(it)] *)
Definition next_ : M (list batch) batch :=
  fun it => match it with
            | [] => ([], Raise StopIteration)
            | b :: rest => (rest, Ok b)
            end.

(** Lines 231-233. *)
Definition encode_latents (b : batch) (models : Setup.ModelsDTO) (e : extras)
    : tensor4 :=
  call (Setup.effnet models) (effnet_preprocess e (images b)).

(** Lines 193-206; the state is [data.iterator].  The two context managers
    ([no_grad], [autocast]) do not change exact arithmetic. *)
Definition forward_pass (config : ConfigDTO) (e : extras)
    (models : Setup.ModelsDTO) : M (list batch) (list Qc * Qc) :=
  let! b := next_ in
  let conditions :=
    Conditions.get_conditions _ _ _ _ super_get_conditions b models e
      false false false None in
  let latents := encode_latents b models e in
  let d := gdf_diffuse e latents in
  let pred := call_generator (Setup.generator models) (noised d) (noise_cond d)
                conditions in
  let! squared := lift (mse_loss_none pred (target d)) in
  let loss := mean_dims_1_2_3 squared in
  let! weighted := lift (mul_1d loss (loss_weight d)) in
  let loss_adjusted := (mean_of weighted / of_Z (grad_accum_steps config))%Qc in
  ret (loss, loss_adjusted).

End ForwardPass.

(** *** The loss in the words of the specification *)

(** The sum of [f i] for [i] below [n]. *)
Definition sum_below (n : nat) (f : nat -> Qc) : Qc := sum (map f (seq 0 n)).

Definition at_ (l : list Qc) (i : nat) : Qc := nth i l 0%Qc.

(** The mean-squared error of sample [i], over all its elements. *)
Definition per_sample_mse (pred tgt : tensor4) (i : nat) : Qc :=
  let D := sample_size pred in
  (sum_below D (fun j =>
     let k := (i * D + j)%nat in
     (at_ (data pred) k - at_ (data tgt) k) * (at_ (data pred) k - at_ (data tgt) k))
   / of_nat D)%Qc.

(** Each per-sample error times its weight, averaged over the batch, divided
    by the accumulation factor. *)
Definition weighted_batch_loss (pred tgt : tensor4) (w : list Qc) (N : Z) : Qc :=
  let B := batch_size pred in
  (sum_below B (fun i => per_sample_mse pred tgt i * at_ w i) / of_nat B / of_Z N)%Qc.

End Loss.

(** ** Reading the calls of a training run *)

Module Ledger.

Import Train.

Definition same_optimizer (a b : optimizer_ref) : bool :=
  match a, b with OptimizerRef x, OptimizerRef y => N.eqb x y end.

Definition same_scheduler (a b : scheduler_ref) : bool :=
  match a, b with SchedulerRef x, SchedulerRef y => N.eqb x y end.

Definition is_optimizer_step (o : optimizer_ref) (e : event) : bool :=
  match e with OptimizerStep o' => same_optimizer o o' | _ => false end.

Definition is_scheduler_step (s : scheduler_ref) (e : event) : bool :=
  match e with SchedulerStep s' => same_scheduler s s' | _ => false end.

Definition is_zero_grad (o : optimizer_ref) (e : event) : bool :=
  match e with ZeroGrad o' _ => same_optimizer o o' | _ => false end.

(** How often a trace steps an optimizer, steps a scheduler, zeroes the
    gradients of an optimizer. *)
Definition optimizer_steps (o : optimizer_ref) (t : list event) : nat :=
  length (List.filter (is_optimizer_step o) t).

Definition scheduler_steps (s : scheduler_ref) (t : list event) : nat :=
  length (List.filter (is_scheduler_step s) t).

Definition zero_grads (o : optimizer_ref) (t : list event) : nat :=
  length (List.filter (is_zero_grad o) t).

(** The object is the value of exactly one entry of a bundle. *)
Definition held_once {A} (same : A -> A -> bool) (x : A) (d : dict A) : bool :=
  Nat.eqb (length (List.filter (same x) (values d))) 1.



(** The scheduler object behind the reference [r] after the calls of a
    trace: each [step()] recorded for [r] advances it. *)
Fixpoint replay (r : scheduler_ref) (t : list event) (s : Warmup.scheduler)
    : Warmup.scheduler :=
  match t with
  | [] => s
  | SchedulerStep r' :: t' =>
      replay r t' (if same_scheduler r r' then Warmup.step s else s)
  | _ :: t' => replay r t' s
  end.

(** [for mb in mbs: self.backward_pass(mb.update, mb.loss, mb.loss_adjusted,
    models, optimizers, schedulers)]: a caller that does not catch. *)
Definition backward_loop (mbs : list micro_batch) (models : ModelsDTO)
    (optimizers : OptimizersDTO) (schedulers : SchedulersDTO) : M world unit :=
  for_ mbs (fun mb =>
    backward_pass (update mb) (loss mb) (loss_adjusted mb) models optimizers
      schedulers ;; ret tt).

End Ledger.

(** ** [models_to_save] *)

Module Saving.

(** Lines 227-228. *)
Definition models_to_save : list string := ["generator"; "generator_ema"]%string.

(** The same surroundings with other checkpoints kept for the experiment. *)
Definition with_experiment_checkpoints (ckpts : gmap string Torch.pyobj)
    (env : Torch.environment) : Torch.environment :=
  {| Torch.device := Torch.device env;
     Torch.files := Torch.files env;
     Torch.experiment_checkpoints := ckpts;
     Torch.init_weights := Torch.init_weights env |}.

(** The same surroundings without the file at [path]. *)
Definition without_file (path : string) (env : Torch.environment)
    : Torch.environment :=
  {| Torch.device := Torch.device env;
     Torch.files := delete path (Torch.files env);
     Torch.experiment_checkpoints := Torch.experiment_checkpoints env;
     Torch.init_weights := Torch.init_weights env |}.

End Saving.

(** ** The two loss lines of [forward_pass] on their own *)

Module LossLines.

Import Loss.

(** Lines 203-204, for a prediction, a target, the loss weights and
    [grad_accum_steps]: the pair [(loss, loss_adjusted)]. *)
Definition loss_lines (pred tgt : tensor4) (w : list Qc) (N : Z)
    : result (list Qc * Qc) :=
  match mse_loss_none pred tgt with
  | Raise e => Raise e
  | Ok squared =>
      let loss := mean_dims_1_2_3 squared in
      match mul_1d loss w with
      | Raise e => Raise e
      | Ok weighted => Ok (loss, (mean_of weighted / of_Z N)%Qc)
      end
  end.

(** What one micro-batch brings to the loss lines. *)
Record loss_input := { li_pred : tensor4; li_target : tensor4; li_weight : list Qc }.

Definition loss_lines_of (N : Z) (i : loss_input) : result (list Qc * Qc) :=
  loss_lines (li_pred i) (li_target i) (li_weight i) N.

End LossLines.

(** ** The script's entry point *)

Module Launch.

(** What [WurstCore(...)] is called with. *)
Record launch_args := { config_file_path : option string; device_index : Z }.

(** [print(line)]; the store is what was written to standard output. *)
Definition print (line : string) : M (list string) unit :=
  modify (fun out => out ++ [line]).

Section Main.

(** [int(s)] for a string: the integer it denotes, [None] where [int] raises
    [ValueError].  Which strings denote integers is left to Python. *)
Variable int_of_str : string -> option Z.

(** [int(x)] for [x] a string or [None]. *)
Definition int_ (x : option string) : result Z :=
  match x with
  | None =>
      Raise (TypeError
        "int() argument must be a string, a bytes-like object or a real number, not 'NoneType'")
  | Some s =>
      match int_of_str s with
      | Some z => Ok z
      | None => Raise (ValueError "invalid literal for int() with base 10")
      end
  end.

(** Lines 238-243, up to the call of [WurstCore]: [environ.get] is the lookup
    of the map; [torch.device], the constructor and the run are outside. *)
Definition main (argv : list string) (environ : gmap string string)
    : M (list string) launch_args :=
  print "Launching Script" ;;
  let config_file_path :=
    if Nat.ltb 1 (length argv) then argv !! 1%nat else None in
  let! index := lift (int_ (environ !! "SLURM_LOCALID"%string)) in
  ret {| config_file_path := config_file_path; device_index := index |}.

End Main.

End Launch.

(** ** Sample inputs *)

Module Samples.

Definition world0 : Train.world := Train.World 0 [].

Definition models0 : Train.ModelsDTO := {| Train.generator := Train.ModuleRef 1 |}.

Definition optimizers0 : Train.OptimizersDTO :=
  {| Train.optimizers_to_dict := [("generator"%string, Train.OptimizerRef 1)] |}.

Definition schedulers0 : Train.SchedulersDTO :=
  {| Train.schedulers_to_dict := [("generator"%string, Train.SchedulerRef 1)] |}.

(** Three micro-batches with accumulation factor 3. *)
Definition window3 : list Train.micro_batch :=
  [ {| Train.update := false; Train.loss := Train.Loss 1; Train.loss_adjusted := Train.Loss 2 |};
    {| Train.update := false; Train.loss := Train.Loss 3; Train.loss_adjusted := Train.Loss 4 |};
    {| Train.update := true; Train.loss := Train.Loss 5; Train.loss_adjusted := Train.Loss 6 |} ].

(** Every module has one parameter, [w]; the previewer's checkpoint nests
    its state mapping, the other two are bare. *)
Definition env0 : Torch.environment :=
  {| Torch.device := 0%N;
     Torch.files :=
       {[ "effnet.pt"%string := Torch.PDict {[ "w"%string := Torch.PTensor 1 ]};
          "previewer.pt"%string :=
            Torch.PDict {[ "state_dict"%string :=
                             Torch.PDict {[ "w"%string := Torch.PTensor 2 ]};
                           "epoch"%string := Torch.PInt 7 ]};
          "generator.pt"%string := Torch.PDict {[ "w"%string := Torch.PTensor 3 ]} ]};
     Torch.experiment_checkpoints := ∅;
     Torch.init_weights := fun _ => {[ "w"%string := 0%N ]} |}.

Definition config_of (version : string) (ema : option Z) : Config.ConfigDTO :=
  {| Config.lr := Q2Qc (1 # 10000);
     Config.warmup_updates := 10;
     Config.model_version := version;
     Config.clip_image_model_name := "openai/clip-vit-large-patch14";
     Config.clip_text_model_name := "laion/CLIP-ViT-bigG-14-laion2B-39B-b160k";
     Config.effnet_checkpoint_path := "effnet.pt";
     Config.previewer_checkpoint_path := "previewer.pt";
     Config.generator_checkpoint_path := Some "generator.pt"%string;
     Config.ema_start_iters := ema;
     Config.use_fsdp := true;
     Config.grad_accum_steps := 3;
     Config.image_size := 768 |}.

Definition config0 : Config.ConfigDTO := config_of "1B" (Some 5000).



(** A prediction and a target for two samples of two elements each. *)
Definition q (n d : Z) : Qc := Q2Qc (Qmake n (Z.to_pos d)).

Definition pred0 : Loss.tensor4 :=
  Loss.Tensor4 (2, 1, 1, 2)%nat [q 1 1; q 2 1; q 3 1; q 4 1].

Definition target0 : Loss.tensor4 :=
  Loss.Tensor4 (2, 1, 1, 2)%nat [q 0 1; q 0 1; q 1 1; q 1 1].

Definition diffused0 (latents : Loss.tensor4) : Loss.diffused :=
  {| Loss.noised := latents; Loss.noise := latents; Loss.target := target0;
     Loss.logSNR := [q 0 1; q 0 1]; Loss.noise_cond := [q 1 2; q 1 2];
     Loss.loss_weight := [q 1 1; q 1 2] |}.

Definition bundle0 : Setup.ModelsDTO :=
  let m := Torch.new_module env0 Torch.Previewer in
  {| Setup.effnet := m; Setup.previewer := m; Setup.generator := Torch.Plain m;
     Setup.generator_ema := None; Setup.clip_tokenizer := "tokenizer";
     Setup.clip_text_model := m; Setup.clip_text_model_proj := m;
     Setup.clip_image_model := m |}.

(** The sample prediction, target and weights as one micro-batch. *)
Definition input0 : LossLines.loss_input :=
  {| LossLines.li_pred := pred0; LossLines.li_target := target0;
     LossLines.li_weight := [q 1 1; q 1 2] |}.


End Samples.

(** * Properties *)

(** ** Running monadic code *)

Module PyFacts.

Lemma run_bind {S A B} (c : M S A) (k : A -> M S B) (s : S) :
  bind c k s
  = match c s with
    | (s', Ok a) => k a s'
    | (s', Raise e) => (s', Raise e)
    end.
Proof. reflexivity. Qed.

Lemma bind_ok_inv {S A B} (c : M S A) (k : A -> M S B) (s s' : S) (b : B) :
  bind c k s = (s', Ok b) ->
  exists s1 a, c s = (s1, Ok a) /\ k a s1 = (s', Ok b).
Proof.
  rewrite run_bind. destruct (c s) as [s1 [a|e]]; [eauto|discriminate].
Qed.

Lemma lift_ok_inv {S A} (r : result A) (s s' : S) (a : A) :
  lift r s = (s', Ok a) -> r = Ok a /\ s' = s.
Proof. unfold lift. intros H. injection H as -> ->. split; reflexivity. Qed.

Lemma ret_ok_inv {S A} (x a : A) (s s' : S) :
  ret x s = (s', Ok a) -> x = a /\ s' = s.
Proof. unfold ret. intros H. injection H as -> ->. split; reflexivity. Qed.

Lemma pure_lift {S A} (r : result A) : pure (@lift S A r).
Proof. intros w. reflexivity. Qed.

Lemma pure_ret {S A} (a : A) : pure (@ret S A a).
Proof. intros w. reflexivity. Qed.

Lemma pure_raise {S A} (e : exn) : pure (@raise S A e).
Proof. intros w. reflexivity. Qed.

Lemma pure_bind {S A B} (c : M S A) (k : A -> M S B) :
  pure c -> (forall a, pure (k a)) -> pure (bind c k).
Proof.
  intros Hc Hk w. rewrite run_bind. specialize (Hc w).
  destruct (c w) as [w1 [a|e]]; simpl in Hc; subst w1; [apply Hk|reflexivity].
Qed.

End PyFacts.

Import PyFacts.

(** ** The backward pass *)

Module TrainFacts.

Import Train.

Lemma lookup_key_in_keys {A} (d : dict A) (k : string) :
  In k (keys d) -> exists v, lookup_key k d = Some v.
Proof.
  induction d as [|[k' v'] d IH]; simpl; [tauto|].
  intros H. destruct (String.eqb k k') eqn:E; [eauto|].
  destruct H as [H|H]; [|auto].
  subst k'. rewrite String.eqb_refl in E. discriminate.
Qed.

(** A loop that issues one call per key issues the calls for the values it
    reads, in order, and returns. *)
Lemma for_emit {A} (f : A -> event) (d : dict A) (ks : list string) (w : world) :
  (forall k, In k ks -> exists v, lookup_key k d = Some v) ->
  for_ ks (fun k => let! o := getitem d k in emit (f o)) w
  = (World (total_steps w) (trace w ++ map f (omap (fun k => lookup_key k d) ks)),
     Ok tt).
Proof.
  revert w. induction ks as [|k ks IH]; intros w Hks; simpl.
  - unfold ret. rewrite app_nil_r. destruct w; reflexivity.
  - destruct (Hks k) as [v Hv]; [left; reflexivity|].
    unfold bind at 1. unfold bind at 1. unfold getitem. rewrite Hv. simpl.
    rewrite IH by (intros k' Hk'; apply Hks; right; exact Hk').
    simpl. rewrite <- app_assoc. reflexivity.
Qed.

Lemma for_emit_keys {A} (f : A -> event) (d : dict A) (w : world) :
  for_ (keys d) (fun k => let! o := getitem d k in emit (f o)) w
  = (World (total_steps w) (trace w ++ map f (values d)), Ok tt).
Proof. apply for_emit. intros k. apply lookup_key_in_keys. Qed.

Lemma run_emit e w : emit e w = (World (total_steps w) (trace w ++ [e]), Ok tt).
Proof. reflexivity. Qed.

Lemma run_clip m q w :
  clip_grad_norm_ m q w
  = (World (total_steps w) (trace w ++ [ClipGradNorm m q]),
     Ok (TotalNorm (length (trace w)))).
Proof. reflexivity. Qed.

Lemma run_no_sync m l w :
  no_sync m (backward l) w
  = (World (total_steps w) (trace w ++ [NoSyncEnter m; Backward l; NoSyncExit m]),
     Ok tt).
Proof.
  unfold no_sync, with_, backward. rewrite !run_emit. simpl.
  rewrite <- !app_assoc. reflexivity.
Qed.

Lemma backward_pass_true l la m o s w :
  backward_pass true l la m o s w
  = (World (total_steps w + 1) (trace w ++ calls_of true la m o s),
     Ok (TotalNorm (S (length (trace w))))).
Proof.
  unfold backward_pass, backward_pass_branches, calls_of, backward.
  rewrite run_bind, run_bind, run_emit.
  rewrite run_bind, run_clip.
  rewrite run_bind, for_emit_keys.
  rewrite run_bind, for_emit_keys.
  rewrite run_bind, for_emit_keys.
  rewrite run_bind. unfold incr_total_steps, modify, ret, read_local.
  cbn [total_steps trace]. rewrite length_app. simpl. rewrite Nat.add_1_r.
  rewrite <- !app_assoc. reflexivity.
Qed.

Lemma backward_pass_false l la m o s w :
  backward_pass false l la m o s w
  = (World (total_steps w) (trace w ++ calls_of false la m o s),
     Raise (UnboundLocalError "grad_norm")).
Proof.
  unfold backward_pass, backward_pass_branches, calls_of.
  rewrite run_bind, run_bind, run_no_sync. reflexivity.
Qed.

Lemma backward_pass_world u l la m o s w :
  fst (backward_pass u l la m o s w)
  = World (total_steps w + (if u then 1 else 0)) (trace w ++ calls_of u la m o s).
Proof.
  destruct u.
  - rewrite backward_pass_true. reflexivity.
  - rewrite backward_pass_false. simpl. rewrite Z.add_0_r. reflexivity.
Qed.

Lemma after_calls_app a b m o s w :
  after_calls (a ++ b) m o s w = after_calls b m o s (after_calls a m o s w).
Proof. revert w. induction a as [|mb a IH]; intros w; simpl; [reflexivity|apply IH]. Qed.

Lemma after_calls_world mbs m o s w :
  after_calls mbs m o s w
  = World (total_steps w + Z.of_nat (length (List.filter update mbs)))
      (trace w ++ calls_of_all mbs m o s).
Proof.
  revert w. induction mbs as [|mb mbs IH]; intros w.
  - simpl. rewrite Z.add_0_r, app_nil_r. destruct w; reflexivity.
  - cbn [after_calls]. rewrite IH, backward_pass_world. cbn [total_steps trace].
    unfold calls_of_all. cbn [flat_map List.filter]. rewrite <- app_assoc. f_equal.
    destruct (update mb); cbn [length]; lia.
Qed.













End TrainFacts.

(** ** The warmup scheduler after a resume *)

Module WarmupFacts.

Import Config Warmup.

Lemma iter_step (o : Train.optimizer_ref) (m : Qc) (W : Z) (n : nat) :
  Nat.iter n step (GradualWarmupScheduler o m W) = Scheduler o m W (Z.of_nat n).
Proof.
  induction n as [|n IH]; [reflexivity|].
  rewrite Nat.iter_succ, IH. unfold step. cbn [optimizer multiplier total_epoch last_epoch].
  f_equal. lia.
Qed.

(** A fresh scheduler over ten warmup steps, stepped four times, applies 4/10. *)
Example warmup_four_of_ten :
  effective_multiplier
    (Nat.iter 4 step (GradualWarmupScheduler (Train.OptimizerRef 1) 1%Qc 10))
  = Some (Q2Qc (4 # 10)).
Proof. rewrite iter_step. reflexivity. Qed.

(** C3. With the restored step count [S] in [info.total_steps],
    [setup_schedulers] returns a warmup scheduler over [warmup_updates] steps
    whose position is [S]: it is the scheduler a fresh one becomes after [S]
    steps, and applies the same factor; the world is left as it was. *)
Theorem setup_schedulers_resumes_at_total_steps
    (config : ConfigDTO) (optimizers : OptimizersDTO) (S : nat)
    (t : list Train.event) :
  let w := Train.World (Z.of_nat S) t in
  let fresh :=
    GradualWarmupScheduler (optimizers_generator optimizers) 1%Qc
      (warmup_updates config) in
  exists resumed,
    setup_schedulers config optimizers w
    = (w, Ok {| schedulers_generator := Some resumed |})
    /\ total_epoch resumed = warmup_updates config
    /\ last_epoch resumed = Z.of_nat S
    /\ resumed = Nat.iter S step fresh
    /\ effective_multiplier resumed = effective_multiplier (Nat.iter S step fresh).
Proof.
  intros w fresh. exists (Scheduler (optimizers_generator optimizers) 1%Qc
                            (warmup_updates config) (Z.of_nat S)).
  unfold fresh. rewrite iter_step. repeat split.
Qed.

End WarmupFacts.

(** ** Model assembly *)

Module SetupFacts.

Import Config Torch Setup.

Ltac solve_pure :=
  repeat first [ apply pure_bind; [|intros ?] | apply pure_lift | apply pure_ret
               | apply pure_raise ].

Lemma pure_setup_effnet env config : pure (setup_effnet env config).
Proof. unfold setup_effnet. solve_pure. Qed.

Lemma pure_setup_previewer env config : pure (setup_previewer env config).
Proof. unfold setup_previewer. solve_pure. Qed.

Lemma pure_new_generators env config : pure (new_generators env config).
Proof.
  unfold new_generators.
  destruct (String.eqb _ "3.6B"); [solve_pure|].
  destruct (String.eqb _ "1B"); solve_pure.
Qed.

Lemma pure_restore_generator env config g : pure (restore_generator env config g).
Proof.
  unfold restore_generator. apply pure_bind; [|intros ?; apply pure_lift].
  destruct (generator_checkpoint_path config); solve_pure.
Qed.

Lemma pure_restore_generator_ema env g e : pure (restore_generator_ema env g e).
Proof. unfold restore_generator_ema. destruct e; solve_pure. Qed.

Lemma pure_setup_models env config : pure (setup_models env config).
Proof.
  unfold setup_models.
  apply pure_bind; [apply pure_setup_effnet|intros ?].
  apply pure_bind; [apply pure_setup_previewer|intros ?].
  apply pure_bind; [apply pure_new_generators|intros ?].
  apply pure_bind; [apply pure_restore_generator|intros ?].
  apply pure_bind; [apply pure_restore_generator_ema|intros ?].
  apply pure_ret.
Qed.

(** A successful [setup_models], phase by phase. *)
Lemma setup_models_inv env config w w' models :
  setup_models env config w = (w', Ok models) ->
  exists ef pv g0 e0 g ema,
    setup_effnet env config w = (w, Ok ef)
    /\ setup_previewer env config w = (w, Ok pv)
    /\ new_generators env config w = (w, Ok (g0, e0))
    /\ restore_generator env config g0 w = (w, Ok g)
    /\ restore_generator_ema env g e0 w = (w, Ok ema)
    /\ w' = w
    /\ models
       = {| effnet := ef; previewer := pv;
            generator := fst (wrap_fsdp env config g ema);
            generator_ema := snd (wrap_fsdp env config g ema);
            clip_tokenizer := clip_text_model_name config;
            clip_text_model :=
              frozen_on env
                (from_pretrained env (CLIPTextModel (clip_text_model_name config)));
            clip_text_model_proj :=
              frozen_on env
                (from_pretrained env
                   (CLIPTextProjection (clip_text_model_name config)));
            clip_image_model :=
              frozen_on env
                (from_pretrained env
                   (CLIPVisionModelWithProjection (clip_image_model_name config)))
         |}.
Proof.
  unfold setup_models. intros H.
  apply bind_ok_inv in H as (w1 & ef & H1 & H).
  pose proof (pure_setup_effnet env config w) as P1. rewrite H1 in P1. simpl in P1. subst w1.
  apply bind_ok_inv in H as (w2 & pv & H2 & H).
  pose proof (pure_setup_previewer env config w) as P2. rewrite H2 in P2. simpl in P2. subst w2.
  apply bind_ok_inv in H as (w3 & [g0 e0] & H3 & H).
  pose proof (pure_new_generators env config w) as P3. rewrite H3 in P3. simpl in P3. subst w3.
  apply bind_ok_inv in H as (w4 & g & H4 & H).
  pose proof (pure_restore_generator env config g0 w) as P4.
  simpl in H4. rewrite H4 in P4. simpl in P4. subst w4.
  apply bind_ok_inv in H as (w5 & ema & H5 & H).
  pose proof (pure_restore_generator_ema env g e0 w) as P5.
  simpl in H5. rewrite H5 in P5. simpl in P5. subst w5.
  apply ret_ok_inv in H as [<- ->].
  exists ef, pv, g0, e0, g, ema. repeat split; assumption.
Qed.

Lemma enforced_end h a b :
  enforced (h ++ [OpEval; OpRequiresGrad false]) a b = true.
Proof. revert a b. induction h as [|o h IH]; intros x y; [reflexivity|]. destruct o; simpl; apply IH. Qed.

Lemma frozen_freeze m : frozen (requires_grad_ (eval_ m) false) = true.
Proof. unfold frozen. simpl. rewrite <- app_assoc. apply enforced_end. Qed.

Lemma setup_effnet_frozen env config w w' ef :
  setup_effnet env config w = (w', Ok ef) -> frozen ef = true.
Proof.
  unfold setup_effnet. intros H.
  apply bind_ok_inv in H as (? & ? & _ & H).
  apply bind_ok_inv in H as (? & ? & _ & H).
  apply bind_ok_inv in H as (? & ? & _ & H).
  apply ret_ok_inv in H as [<- _]. apply frozen_freeze.
Qed.

Lemma setup_previewer_frozen env config w w' pv :
  setup_previewer env config w = (w', Ok pv) -> frozen pv = true.
Proof.
  unfold setup_previewer. intros H.
  apply bind_ok_inv in H as (? & ? & _ & H).
  apply bind_ok_inv in H as (? & ? & _ & H).
  apply bind_ok_inv in H as (? & ? & _ & H).
  apply ret_ok_inv in H as [<- _]. apply frozen_freeze.
Qed.

(** What a successful [restore_generator_ema] did to a shadow. *)
Lemma restore_generator_ema_inv env g e0 w w' ema :
  restore_generator_ema env g e0 w = (w', Ok ema) ->
  match e0 with
  | None => ema = None
  | Some fresh =>
      exists init restored,
        load_state_dict fresh (state_dict g) = Ok init
        /\ load_model env init "generator_ema" = Ok restored
        /\ ema = Some (requires_grad_ (eval_ restored) false)
  end.
Proof.
  unfold restore_generator_ema. destruct e0 as [fresh|]; intros H.
  - apply bind_ok_inv in H as (w1 & init & H1 & H).
    apply lift_ok_inv in H1 as [H1 ->].
    apply bind_ok_inv in H as (w2 & restored & H2 & H).
    apply lift_ok_inv in H2 as [H2 ->].
    apply ret_ok_inv in H as [<- _]. eauto.
  - apply ret_ok_inv in H as [<- _]. reflexivity.
Qed.

Lemma network_wrap_generator env config g ema :
  network (fst (wrap_fsdp env config g ema)) = g.
Proof. unfold wrap_fsdp. destruct (use_fsdp config); reflexivity. Qed.

Lemma network_wrap_ema env config g ema :
  option_map network (snd (wrap_fsdp env config g ema)) = ema.
Proof. unfold wrap_fsdp. destruct (use_fsdp config), ema; reflexivity. Qed.

(** C7. After [setup_models] has returned, every frozen model of the bundle
    (the effnet encoder, the previewer, the EMA shadow when there is one, the
    three CLIP sub-models) is in evaluation mode and tracks no gradients, and
    in its history both were set after the last load of weights. *)
Theorem setup_models_freezes env config w w' models :
  setup_models env config w = (w', Ok models) ->
  Forall (fun m => training m = false /\ requires_grad m = false
                   /\ enforced (history m) false false = true)
    (frozen_models models).
Proof.
  intros H.
  assert (Hall : forallb frozen (frozen_models models) = true).
  { apply setup_models_inv in H
      as (ef & pv & g0 & e0 & g & ema & H1 & H2 & _ & _ & H5 & _ & ->).
    unfold frozen_models. cbn [effnet previewer generator_ema clip_text_model
      clip_text_model_proj clip_image_model].
    rewrite !forallb_app. cbn [forallb].
    rewrite (setup_effnet_frozen _ _ _ _ _ H1), (setup_previewer_frozen _ _ _ _ _ H2).
    unfold frozen_on. rewrite !frozen_freeze. cbn [andb].
    rewrite andb_true_r.
    pose proof (network_wrap_ema env config g ema) as Hn.
    apply restore_generator_ema_inv in H5.
    destruct (snd (wrap_fsdp env config g ema)) as [e|]; [|reflexivity].
    destruct ema as [e'|]; [|discriminate]. injection Hn as Hn.
    destruct e0 as [fresh|]; [|discriminate].
    destruct H5 as (init & restored & _ & _ & [= ->]).
    cbn [forallb]. rewrite Hn, frozen_freeze. reflexivity. }
  apply Forall_forall. intros m Hm.
  rewrite forallb_forall in Hall. specialize (Hall m Hm).
  unfold frozen in Hall.
  apply andb_prop in Hall as [Hall He]. apply andb_prop in Hall as [Ht Hg].
  apply negb_true_iff in Ht, Hg. auto.
Qed.

Lemma setup_models_freezes_witness :
  exists models,
    setup_models Samples.env0 Samples.config0 Samples.world0
    = (Samples.world0, Ok models)
    /\ Forall (fun m => training m = false /\ requires_grad m = false
                        /\ enforced (history m) false false = true)
         (frozen_models models).
Proof.
  eexists. split.
  - vm_compute. reflexivity.
  - apply (setup_models_freezes Samples.env0 Samples.config0 Samples.world0
             Samples.world0).
    vm_compute. reflexivity.
Defined.

Lemma tensors_of_state (ws : gmap string N) : tensors_of (PTensor <$> ws) = ws.
Proof.
  apply map_eq. intros i. unfold tensors_of.
  rewrite lookup_omap, lookup_fmap. destruct (ws !! i); reflexivity.
Qed.

Lemma load_state_dict_inv m sd m' :
  load_state_dict m sd = Ok m' ->
  exists d, sd = PDict d /\ dom d = dom (weights m) /\ dom (tensors_of d) = dom d
    /\ m' = NNModule (arch m) (tensors_of d) (training m) (requires_grad m)
              (device_of m) (history m ++ [OpLoad]).
Proof.
  unfold load_state_dict. destruct sd as [| |d]; try discriminate.
  destruct (decide _) as [[H1 H2]|]; [|discriminate].
  intros [= <-]. eauto.
Qed.

Lemma load_state_dict_arch m sd m' :
  load_state_dict m sd = Ok m' -> arch m' = arch m.
Proof. intros H. apply load_state_dict_inv in H as (d & _ & _ & _ & ->). reflexivity. Qed.

Lemma load_model_arch env m id m' : load_model env m id = Ok m' -> arch m' = arch m.
Proof.
  unfold load_model. destruct (experiment_checkpoints env !! id).
  - apply load_state_dict_arch.
  - intros [= <-]. reflexivity.
Qed.

Lemma new_generators_inv env config w w' g0 e0 :
  new_generators env config w = (w', Ok (g0, e0)) ->
  exists kw,
    (model_version config = "3.6B"%string /\ kw = StageC_3_6B
     \/ model_version config = "1B"%string /\ kw = StageC_1B)
    /\ g0 = to_ (new_module env (StageC kw)) (device env)
    /\ e0 = if is_not_None (ema_start_iters config)
            then Some (to_ (new_module env (StageC kw)) (device env))
            else None.
Proof.
  unfold new_generators.
  destruct (String.eqb (model_version config) "3.6B") eqn:E1.
  - apply String.eqb_eq in E1. intros H. apply ret_ok_inv in H as [[= <- <-] _].
    exists StageC_3_6B. auto.
  - destruct (String.eqb (model_version config) "1B") eqn:E2.
    + apply String.eqb_eq in E2. intros H. apply ret_ok_inv in H as [[= <- <-] _].
      exists StageC_1B. auto.
    + discriminate.
Qed.

Lemma restore_generator_arch env config g0 w w' g :
  restore_generator env config g0 w = (w', Ok g) -> arch g = arch g0.
Proof.
  unfold restore_generator. intros H.
  apply bind_ok_inv in H as (w1 & g1 & H1 & H).
  apply lift_ok_inv in H as [H _]. apply load_model_arch in H. rewrite H.
  destruct (generator_checkpoint_path config) as [path|].
  - apply bind_ok_inv in H1 as (w2 & ckpt & _ & H1).
    apply lift_ok_inv in H1 as [H1 _]. apply load_state_dict_arch in H1. exact H1.
  - apply ret_ok_inv in H1 as [<- _]. reflexivity.
Qed.

(** C8. A successful [setup_models] returns an EMA shadow exactly when
    [ema_start_iters] is not [None].  The shadow has the architecture of the
    generator, the one of the selected [model_version]; it was built like the
    generator, took the generator's weights as they stood, then its own
    checkpoint if there is one, and was frozen. *)
Theorem setup_models_ema_shadow env config w w' models :
  setup_models env config w = (w', Ok models) ->
  let g := network (generator models) in
  (generator_ema models <> None <-> ema_start_iters config <> None)
  /\ forall ema, generator_ema models = Some ema ->
       arch (network ema) = arch g
       /\ (model_version config = "3.6B"%string /\ arch g = StageC StageC_3_6B
           \/ model_version config = "1B"%string /\ arch g = StageC StageC_1B)
       /\ exists init restored,
            load_state_dict (to_ (new_module env (arch g)) (device env))
              (state_dict g) = Ok init
            /\ weights init = weights g
            /\ load_model env init "generator_ema" = Ok restored
            /\ network ema = requires_grad_ (eval_ restored) false.
Proof.
  intros H g.
  apply setup_models_inv in H
    as (ef & pv & g0 & e0 & g' & ema' & _ & _ & H3 & H4 & H5 & _ & Hm).
  assert (Hg : g = g').
  { unfold g. rewrite Hm. cbn [generator]. apply network_wrap_generator. }
  assert (He : option_map network (generator_ema models) = ema').
  { rewrite Hm. cbn [generator_ema]. apply network_wrap_ema. }
  clear Hm. rewrite Hg. clear g Hg.
  apply new_generators_inv in H3 as (kw & Hkw & -> & ->).
  apply restore_generator_arch in H4. cbn [to_ new_module arch] in H4.
  apply restore_generator_ema_inv in H5.
  split.
  - destruct (ema_start_iters config) as [n|]; cbn [is_not_None] in H5.
    + destruct H5 as (init & restored & _ & _ & ->).
      destruct (generator_ema models); [|discriminate]. split; discriminate.
    + subst ema'. destruct (generator_ema models); [discriminate|]. tauto.
  - intros ema Hema. rewrite Hema in He. cbn [option_map] in He. subst ema'.
    destruct (ema_start_iters config) as [n|]; cbn [is_not_None] in H5;
      [|discriminate].
    destruct H5 as (init & restored & Hinit & Hrest & [= Hnet]).
    assert (Hai : arch init = StageC kw).
    { apply load_state_dict_arch in Hinit. exact Hinit. }
    assert (Har : arch restored = StageC kw).
    { apply load_model_arch in Hrest. congruence. }
    split; [rewrite Hnet, H4; exact Har|].
    split; [destruct Hkw as [[? ->]|[? ->]]; auto|].
    exists init, restored. rewrite H4. repeat split; try assumption.
    apply load_state_dict_inv in Hinit as (d & [= <-] & _ & _ & ->).
    cbn [weights]. apply tensors_of_state.
Qed.

Lemma setup_models_ema_shadow_witness :
  exists models,
    setup_models Samples.env0 Samples.config0 Samples.world0
    = (Samples.world0, Ok models)
    /\ (generator_ema models <> None
        <-> ema_start_iters Samples.config0 <> None).
Proof.
  eexists. split.
  - vm_compute. reflexivity.
  - refine (proj1 (setup_models_ema_shadow Samples.env0 Samples.config0
                     Samples.world0 Samples.world0 _ _)).
    vm_compute. reflexivity.
Defined.




(** *** Checkpoint forms *)






Lemma bind_ext {S A B} (c1 c2 : M S A) (k1 k2 : A -> M S B) (s : S) :
  c1 s = c2 s -> (forall a s', k1 a s' = k2 a s') -> bind c1 k1 s = bind c2 k2 s.
Proof.
  intros Hc Hk. rewrite !run_bind, Hc.
  destruct (c2 s) as [s' [a|e]]; [apply Hk|reflexivity].
Qed.

Lemma tensors_of_full (d : gmap string pyobj) :
  dom (tensors_of d) = dom d -> PTensor <$> tensors_of d = d.
Proof.
  intros H. apply map_eq. intros i. unfold tensors_of in *.
  rewrite lookup_fmap, lookup_omap.
  destruct (d !! i) as [v|] eqn:E; [|reflexivity]. cbn.
  assert (Hi : is_Some (omap as_tensor d !! i)).
  { apply elem_of_dom. rewrite H. apply elem_of_dom. eauto. }
  rewrite lookup_omap, E in Hi. cbn in Hi. destruct Hi as [n Hn].
  destruct v; try discriminate. reflexivity.
Qed.







End SetupFacts.

(** ** Conditioning fields *)

Module ConditionsFacts.

Import Conditions.

(** C10. With [return_fields] empty or [None], [get_conditions] asks the
    parent for the three default fields; whatever the argument, the list it
    passes on is never empty. *)
Theorem get_conditions_falsy_means_default
    (batch models extras conditions : Type)
    (super_get_conditions :
       batch -> models -> extras -> bool -> bool -> bool -> list string -> conditions)
    (b : batch) (m : models) (e : extras)
    (is_eval is_unconditional eval_image_embeds : bool) :
  get_conditions _ _ _ _ super_get_conditions b m e is_eval is_unconditional
    eval_image_embeds (Some [])
  = super_get_conditions b m e is_eval is_unconditional eval_image_embeds
      ["clip_text"; "clip_text_pooled"; "clip_img"]%string
  /\ get_conditions _ _ _ _ super_get_conditions b m e is_eval is_unconditional
       eval_image_embeds None
     = super_get_conditions b m e is_eval is_unconditional eval_image_embeds
         ["clip_text"; "clip_text_pooled"; "clip_img"]%string
  /\ forall return_fields,
       exists passed,
         passed <> []
         /\ passed = or_ return_fields default_return_fields
         /\ get_conditions _ _ _ _ super_get_conditions b m e is_eval
              is_unconditional eval_image_embeds return_fields
            = super_get_conditions b m e is_eval is_unconditional
                eval_image_embeds passed.
Proof.
  split; [reflexivity|]. split; [reflexivity|].
  intros rf. exists (or_ rf default_return_fields).
  split; [|split; reflexivity].
  destruct rf as [[|f fs]|]; discriminate.
Qed.

(** A list that is not empty is passed on as it is. *)
Example get_conditions_keeps_a_request :
  or_ (Some ["clip_img"%string]) default_return_fields = ["clip_img"%string].
Proof. reflexivity. Qed.

End ConditionsFacts.

(** ** The training loss *)

Module LossFacts.

Import Config Loss.

Local Open Scope nat_scope.

Lemma sum_below_succ (n : nat) (f : nat -> Qc) :
  sum_below (S n) f = (f O + sum_below n (fun i => f (S i)))%Qc.
Proof.
  unfold sum_below. cbn [seq map sum foldr]. f_equal.
  rewrite <- seq_shift, map_map. reflexivity.
Qed.

Lemma sum_below_ext (n : nat) (f g : nat -> Qc) :
  (forall i, i < n -> f i = g i) -> sum_below n f = sum_below n g.
Proof.
  revert f g. induction n as [|n IH]; intros f g H; [reflexivity|].
  rewrite !sum_below_succ. f_equal; [apply H; lia|].
  apply IH. intros i Hi. apply H. lia.
Qed.

Lemma sum_at (l : list Qc) : sum l = sum_below (length l) (at_ l).
Proof.
  induction l as [|x l IH]; [reflexivity|].
  cbn [length]. rewrite sum_below_succ. cbn [sum foldr]. f_equal. exact IH.
Qed.

Lemma at_zip_with (f : Qc -> Qc -> Qc) (a b : list Qc) (i : nat) :
  i < length a -> i < length b ->
  at_ (zip_with f a b) i = f (at_ a i) (at_ b i).
Proof.
  revert b i. induction a as [|x a IH]; intros [|y b] [|i] Ha Hb;
    cbn in *; try lia; [reflexivity|].
  apply IH; lia.
Qed.

Lemma at_map_seq (f : nat -> Qc) (n i : nat) :
  i < n -> at_ (map f (seq 0 n)) i = f i.
Proof.
  intros H. unfold at_.
  rewrite (nth_indep _ 0%Qc (f O)) by (rewrite length_map, length_seq; exact H).
  rewrite map_nth, seq_nth by exact H. reflexivity.
Qed.

Lemma chunks_spec (n size : nat) (l : list Qc) :
  chunks n size l = map (fun i => take size (drop (i * size) l)) (seq 0 n).
Proof.
  revert l. induction n as [|n IH]; intros l; [reflexivity|].
  cbn [chunks]. rewrite IH. cbn [seq map]. f_equal.
  rewrite <- seq_shift, map_map. apply map_ext. intros i.
  rewrite drop_drop. do 2 f_equal; lia.
Qed.

Lemma at_chunk (size k j : nat) (l : list Qc) :
  j < size -> at_ (take size (drop k l)) j = at_ l (k + j).
Proof.
  intros H. unfold at_. rewrite nth_firstn.
  destruct (j <? size) eqn:E; [|apply Nat.ltb_ge in E; lia].
  apply nth_skipn.
Qed.

Lemma length_zip_same (f : Qc -> Qc -> Qc) (a b : list Qc) :
  length a = length b -> length (zip_with f a b) = length a.
Proof.
  revert b. induction a as [|x a IH]; intros [|y b] H; cbn in *; try lia.
  rewrite IH; lia.
Qed.

Lemma mean_chunk (B D i : nat) (l : list Qc) :
  length l = B * D -> i < B ->
  mean_of (take D (drop (i * D) l))
  = (sum_below D (fun j => at_ l (i * D + j)) / of_nat D)%Qc.
Proof.
  intros Hl Hi. unfold mean_of.
  assert (Hlen : length (take D (drop (i * D) l)) = D).
  { rewrite length_take, length_drop, Hl. nia. }
  rewrite sum_at, Hlen. f_equal.
  apply sum_below_ext. intros j Hj. apply at_chunk, Hj.
Qed.

(** The per-sample means of the squared differences are the per-sample
    mean-squared errors. *)
Lemma mean_dims_mse (pred tgt squared : tensor4) :
  shape pred = shape tgt -> well_formed pred -> well_formed tgt ->
  mse_loss_none pred tgt = Ok squared ->
  mean_dims_1_2_3 squared = map (per_sample_mse pred tgt) (seq 0 (batch_size pred)).
Proof.
  intros Hs Hp Ht. unfold mse_loss_none. rewrite decide_True by exact Hs.
  intros [= <-]. unfold mean_dims_1_2_3.
  change (batch_size (Tensor4 (shape pred) _)) with (batch_size pred).
  change (sample_size (Tensor4 (shape pred) _)) with (sample_size pred).
  cbn [data]. rewrite chunks_spec.
  assert (Hpt : length (data pred) = length (data tgt)).
  { unfold well_formed, batch_size, sample_size in *. rewrite Hp, Ht, Hs. reflexivity. }
  rewrite map_map. apply map_ext_in. intros i Hi. apply in_seq in Hi.
  rewrite (mean_chunk (batch_size pred)); [| |lia].
  - unfold per_sample_mse. f_equal. apply sum_below_ext. intros j Hj.
    apply at_zip_with; [rewrite Hp|rewrite <- Hpt, Hp]; nia.
  - rewrite length_zip_same by exact Hpt. exact Hp.
Qed.

Lemma sum_weighted (f : nat -> Qc) (w : list Qc) (B : nat) :
  length w = B ->
  sum (zip_with Qcmult (map f (seq 0 B)) w) = sum_below B (fun i => (f i * at_ w i)%Qc).
Proof.
  intros Hw. rewrite sum_at.
  assert (Hl : length (map f (seq 0 B)) = length w)
    by (rewrite length_map, length_seq; symmetry; exact Hw).
  rewrite length_zip_same, length_map, length_seq by exact Hl.
  apply sum_below_ext. intros i Hi.
  rewrite at_zip_with, at_map_seq; [reflexivity|exact Hi| |lia].
  rewrite length_map, length_seq. exact Hi.
Qed.

(** C5. For a prediction and a target of one shape and one weight per
    sample, [forward_pass] returns the per-sample mean-squared errors and, as
    [loss_adjusted], their products with the loss weights averaged over the
    batch and divided by [grad_accum_steps].  The batch and the samples are
    not empty and the factor is not zero: elsewhere floating point divides by
    zero and exact arithmetic has nothing to say. *)
Theorem forward_pass_loss_adjusted
    (batch extras conditions : Type)
    (super_get_conditions :
       batch -> Setup.ModelsDTO -> extras -> bool -> bool -> bool -> list string
       -> conditions)
    (images : batch -> tensor4)
    (effnet_preprocess : extras -> tensor4 -> tensor4)
    (gdf_diffuse : extras -> tensor4 -> diffused)
    (call : Torch.nn_module -> tensor4 -> tensor4)
    (call_generator : Torch.model -> tensor4 -> list Qc -> conditions -> tensor4)
    (config : ConfigDTO) (e : extras) (models : Setup.ModelsDTO)
    (b : batch) (rest : list batch) :
  let d :=
    gdf_diffuse e (encode_latents batch extras images effnet_preprocess call b models e) in
  let pred :=
    call_generator (Setup.generator models) (noised d) (noise_cond d)
      (super_get_conditions b models e false false false
         ["clip_text"; "clip_text_pooled"; "clip_img"]%string) in
  shape pred = shape (target d) ->
  well_formed pred ->
  well_formed (target d) ->
  length (loss_weight d) = batch_size pred ->
  0 < batch_size pred ->
  0 < sample_size pred ->
  grad_accum_steps config <> 0%Z ->
  forward_pass batch extras conditions super_get_conditions images effnet_preprocess
    gdf_diffuse call call_generator config e models (b :: rest)
  = (rest,
     Ok (map (per_sample_mse pred (target d)) (seq 0 (batch_size pred)),
         weighted_batch_loss pred (target d) (loss_weight d)
           (grad_accum_steps config))).
Proof.
  intros d pred Hs Hp Ht Hw _ _ _.
  unfold forward_pass. rewrite run_bind. cbn [next_].
  fold d. unfold Conditions.get_conditions. cbn [Conditions.or_].
  unfold Conditions.default_return_fields. fold pred. rewrite run_bind. unfold lift at 1.
  destruct (mse_loss_none pred (target d)) as [squared|err] eqn:E.
  2:{ unfold mse_loss_none in E. rewrite decide_True in E by exact Hs. discriminate. }
  rewrite (mean_dims_mse pred (target d) squared Hs Hp Ht E).
  rewrite run_bind. unfold lift, mul_1d.
  rewrite decide_True by (rewrite length_map, length_seq; symmetry; exact Hw).
  unfold ret. do 3 f_equal.
  unfold weighted_batch_loss, mean_of. f_equal. f_equal.
  - apply sum_weighted, Hw.
  - rewrite length_zip_same, length_map, length_seq;
      [reflexivity|rewrite length_map, length_seq; symmetry; exact Hw].
Qed.

Lemma forward_pass_loss_adjusted_witness :
  shape Samples.pred0 = shape Samples.target0
  /\ well_formed Samples.pred0
  /\ well_formed Samples.target0
  /\ forward_pass unit unit unit (fun _ _ _ _ _ _ _ => tt) (fun _ => Samples.pred0)
       (fun _ t => t) (fun _ => Samples.diffused0) (fun _ t => t)
       (fun _ _ _ _ => Samples.pred0) Samples.config0 tt Samples.bundle0 [tt; tt]
     = ([tt],
        Ok (map (per_sample_mse Samples.pred0 Samples.target0) (seq 0 2),
            weighted_batch_loss Samples.pred0 Samples.target0
              [Samples.q 1 1; Samples.q 1 2] 3)).
Proof.
  split; [reflexivity|]. split; [reflexivity|]. split; [reflexivity|].
  apply (forward_pass_loss_adjusted unit unit unit (fun _ _ _ _ _ _ _ => tt)
           (fun _ => Samples.pred0) (fun _ t => t) (fun _ => Samples.diffused0)
           (fun _ t => t) (fun _ _ _ _ => Samples.pred0) Samples.config0 tt
           Samples.bundle0 tt [tt]);
    try reflexivity; try (cbn; lia); discriminate.
Defined.

(** On the sample, the two errors are 5/2 and 13/2 and the adjusted loss is
    (5/2 * 1 + 13/2 * 1/2) / 2 / 3 = 23/24. *)
Example sample_loss_adjusted :
  map (per_sample_mse Samples.pred0 Samples.target0) (seq 0 2)
  = [Samples.q 5 2; Samples.q 13 2]
  /\ weighted_batch_loss Samples.pred0 Samples.target0 [Samples.q 1 1; Samples.q 1 2] 3
     = Samples.q 23 24.
Proof.
  split.
  - cbn [map seq]. repeat f_equal; apply Qc_is_canon; reflexivity.
  - apply Qc_is_canon. reflexivity.
Qed.

End LossFacts.

(** ** What a training run adds up to *)

Module LedgerFacts.

Import Train Ledger TrainFacts.

Lemma count_map {A} (p : event -> bool) (f : A -> event) (l : list A) :
  length (List.filter p (map f l)) = length (List.filter (fun x => p (f x)) l).
Proof.
  induction l as [|x l IH]; [reflexivity|].
  simpl. destruct (p (f x)); simpl; rewrite IH; reflexivity.
Qed.

Lemma count_none {A} (l : list A) : length (List.filter (fun _ => false) l) = 0%nat.
Proof. induction l as [|x l IH]; [reflexivity|exact IH]. Qed.

Lemma optimizer_steps_call o u la m os ss :
  optimizer_steps o (calls_of u la m os ss)
  = if u then length (List.filter (same_optimizer o) (values (optimizers_to_dict os)))
    else 0%nat.
Proof.
  destruct u; [|reflexivity].
  unfold optimizer_steps, calls_of.
  rewrite !List.filter_app, !length_app, !count_map. cbn [is_optimizer_step].
  rewrite !count_none. simpl. rewrite ?Nat.add_0_r. reflexivity.
Qed.

Lemma scheduler_steps_call r u la m os ss :
  scheduler_steps r (calls_of u la m os ss)
  = if u then length (List.filter (same_scheduler r) (values (schedulers_to_dict ss)))
    else 0%nat.
Proof.
  destruct u; [|reflexivity].
  unfold scheduler_steps, calls_of.
  rewrite !List.filter_app, !length_app, !count_map. cbn [is_scheduler_step].
  rewrite !count_none. simpl. rewrite ?Nat.add_0_r. reflexivity.
Qed.

Lemma zero_grads_call o u la m os ss :
  zero_grads o (calls_of u la m os ss)
  = if u then length (List.filter (same_optimizer o) (values (optimizers_to_dict os)))
    else 0%nat.
Proof.
  destruct u; [|reflexivity].
  unfold zero_grads, calls_of.
  rewrite !List.filter_app, !length_app, !count_map. cbn [is_zero_grad].
  rewrite !count_none. simpl. rewrite ?Nat.add_0_r. reflexivity.
Qed.

Lemma held_once_count {A} (same : A -> A -> bool) (x : A) (d : dict A) :
  held_once same x d = true -> length (List.filter (same x) (values d)) = 1%nat.
Proof. unfold held_once. apply Nat.eqb_eq. Qed.

Lemma calls_of_all_cons mb mbs m os ss :
  calls_of_all (mb :: mbs) m os ss
  = calls_of (update mb) (loss_adjusted mb) m os ss ++ calls_of_all mbs m os ss.
Proof. reflexivity. Qed.

(** Over any sequence of calls an object held once is stepped once per
    update. *)
Lemma steps_of_all (count : list event -> nat) mbs m os ss :
  (forall a b, count (a ++ b) = (count a + count b)%nat) ->
  (forall u la, count (calls_of u la m os ss) = if u then 1%nat else 0%nat) ->
  count (calls_of_all mbs m os ss) = length (List.filter update mbs).
Proof.
  intros Happ Hcall. induction mbs as [|mb mbs IH].
  - simpl. specialize (Happ [] []). simpl in Happ. lia.
  - rewrite calls_of_all_cons, Happ, Hcall, IH. cbn [List.filter].
    destruct (update mb); reflexivity.
Qed.

Lemma optimizer_steps_app o a b :
  optimizer_steps o (a ++ b) = (optimizer_steps o a + optimizer_steps o b)%nat.
Proof. unfold optimizer_steps. rewrite List.filter_app, length_app. reflexivity. Qed.

Lemma scheduler_steps_app r a b :
  scheduler_steps r (a ++ b) = (scheduler_steps r a + scheduler_steps r b)%nat.
Proof. unfold scheduler_steps. rewrite List.filter_app, length_app. reflexivity. Qed.

Lemma zero_grads_app o a b :
  zero_grads o (a ++ b) = (zero_grads o a + zero_grads o b)%nat.
Proof. unfold zero_grads. rewrite List.filter_app, length_app. reflexivity. Qed.

(** X1. Whatever the sequence of [backward_pass] calls, an optimizer and a
    scheduler that each sit once in their bundle have been stepped, and the
    optimizer's gradients zeroed, exactly as often as [info.total_steps] has
    risen; one call raises all four by one when [update] is true and by
    nothing otherwise. *)
Theorem steps_rise_with_total_steps o r m os ss w mbs :
  held_once same_optimizer o (optimizers_to_dict os) = true ->
  held_once same_scheduler r (schedulers_to_dict ss) = true ->
  let w' := after_calls mbs m os ss w in
  let gain := total_steps w' - total_steps w in
  gain = Z.of_nat (length (List.filter update mbs))
  /\ Z.of_nat (optimizer_steps o (trace w')) = Z.of_nat (optimizer_steps o (trace w)) + gain
  /\ Z.of_nat (scheduler_steps r (trace w')) = Z.of_nat (scheduler_steps r (trace w)) + gain
  /\ Z.of_nat (zero_grads o (trace w')) = Z.of_nat (zero_grads o (trace w)) + gain.
Proof.
  intros Ho Hr w' gain. unfold gain, w'. rewrite after_calls_world.
  cbn [total_steps trace].
  apply held_once_count in Ho, Hr.
  rewrite optimizer_steps_app, scheduler_steps_app, zero_grads_app.
  rewrite (steps_of_all (optimizer_steps o)), (steps_of_all (scheduler_steps r)),
    (steps_of_all (zero_grads o)).
  - lia.
  - apply zero_grads_app.
  - intros u la. rewrite zero_grads_call, Ho. reflexivity.
  - apply scheduler_steps_app.
  - intros u la. rewrite scheduler_steps_call, Hr. reflexivity.
  - apply optimizer_steps_app.
  - intros u la. rewrite optimizer_steps_call, Ho. reflexivity.
Qed.

Lemma steps_rise_with_total_steps_witness :
  held_once same_optimizer (OptimizerRef 1) (optimizers_to_dict Samples.optimizers0) = true
  /\ held_once same_scheduler (SchedulerRef 1) (schedulers_to_dict Samples.schedulers0) = true
  /\ Z.of_nat (optimizer_steps (OptimizerRef 1)
                (trace (after_calls Samples.window3 Samples.models0 Samples.optimizers0
                          Samples.schedulers0 Samples.world0)))
     = Z.of_nat (optimizer_steps (OptimizerRef 1) (trace Samples.world0))
       + (total_steps (after_calls Samples.window3 Samples.models0 Samples.optimizers0
                         Samples.schedulers0 Samples.world0)
          - total_steps Samples.world0).
Proof.
  split; [reflexivity|]. split; [reflexivity|].
  exact (proj1 (proj2
    (steps_rise_with_total_steps (OptimizerRef 1) (SchedulerRef 1) Samples.models0
       Samples.optimizers0 Samples.schedulers0 Samples.world0 Samples.window3
       eq_refl eq_refl))).
Defined.











(** X4. A loop of calls that all have [update=True] (accumulation factor 1)
    returns normally, and leaves the world that the calls leave one after the
    other: [info.total_steps] has risen by the number of calls. *)
Theorem update_loop_runs_through mbs m os ss w :
  forallb update mbs = true ->
  backward_loop mbs m os ss w = (after_calls mbs m os ss w, Ok tt)
  /\ total_steps (after_calls mbs m os ss w) = total_steps w + Z.of_nat (length mbs).
Proof.
  intros H. split.
  - revert w. induction mbs as [|mb mbs IH]; intros w; [reflexivity|].
    cbn [forallb] in H. apply andb_prop in H as [Hu H].
    unfold backward_loop in *. cbn [for_ after_calls].
    rewrite PyFacts.run_bind, PyFacts.run_bind, Hu, backward_pass_true.
    unfold ret at 1. cbn [fst]. apply IH, H.
  - rewrite after_calls_world. cbn [total_steps]. do 2 f_equal.
    induction mbs as [|mb mbs IH]; [reflexivity|].
    cbn [forallb] in H. apply andb_prop in H as [Hu H].
    cbn [List.filter]. rewrite Hu. cbn [length]. rewrite IH by exact H. reflexivity.
Qed.

Lemma update_loop_runs_through_witness :
  forallb update (List.filter update Samples.window3) = true
  /\ total_steps (after_calls (List.filter update Samples.window3) Samples.models0
                    Samples.optimizers0 Samples.schedulers0 Samples.world0)
     = total_steps Samples.world0
       + Z.of_nat (length (List.filter update Samples.window3)).
Proof.
  split; [reflexivity|].
  exact (proj2 (update_loop_runs_through (List.filter update Samples.window3)
                  Samples.models0 Samples.optimizers0 Samples.schedulers0
                  Samples.world0 eq_refl)).
Defined.


Lemma replay_app r a b s : replay r (a ++ b) s = replay r b (replay r a s).
Proof.
  revert s. induction a as [|e a IH]; intros s; [reflexivity|].
  destruct e; simpl; apply IH.
Qed.

Lemma replay_position r t s :
  Warmup.last_epoch (replay r t s)
  = Warmup.last_epoch s + Z.of_nat (scheduler_steps r t)
  /\ Warmup.total_epoch (replay r t s) = Warmup.total_epoch s
  /\ Warmup.multiplier (replay r t s) = Warmup.multiplier s.
Proof.
  revert s. induction t as [|e t IH]; intros s.
  - simpl. repeat split. unfold scheduler_steps. simpl. lia.
  - destruct e; try (simpl; apply IH).
    cbn [replay]. unfold scheduler_steps. cbn [List.filter is_scheduler_step].
    destruct (same_scheduler r s0).
    + destruct (IH (Warmup.step s)) as (H1 & H2 & H3).
      rewrite H1, H2, H3. cbn [length]. fold (scheduler_steps r t).
      unfold Warmup.step.
      cbn [Warmup.last_epoch Warmup.total_epoch Warmup.multiplier].
      repeat split. lia.
    + fold (scheduler_steps r t). apply IH.
Qed.

(** X6. The scheduler that [setup_schedulers] returns starts at
    [info.total_steps], and if it sits once in the schedulers bundle its
    position equals [info.total_steps] again after every sequence of
    [backward_pass] calls ([step()] advancing the position by one); its
    warmup length stays [warmup_updates]. *)
Theorem scheduler_position_is_total_steps config opts r m os ss w mbs :
  held_once same_scheduler r (schedulers_to_dict ss) = true ->
  exists sched,
    Warmup.setup_schedulers config opts w
    = (w, Ok {| Warmup.schedulers_generator := Some sched |})
    /\ Warmup.last_epoch sched = total_steps w
    /\ let w' := after_calls mbs m os ss w in
       let sched' := replay r (calls_of_all mbs m os ss) sched in
       Warmup.last_epoch sched' = total_steps w'
       /\ Warmup.total_epoch sched' = Config.warmup_updates config.
Proof.
  intros Hr.
  exists (Warmup.Scheduler (Warmup.optimizers_generator opts) 1%Qc
            (Config.warmup_updates config) (total_steps w)).
  split; [reflexivity|]. split; [reflexivity|].
  intros w' sched'. unfold sched', w'.
  destruct (replay_position r (calls_of_all mbs m os ss)
              (Warmup.Scheduler (Warmup.optimizers_generator opts) 1%Qc
                 (Config.warmup_updates config) (total_steps w))) as (H1 & H2 & _).
  rewrite H1, H2, after_calls_world. cbn [total_steps Warmup.last_epoch Warmup.total_epoch].
  split; [|reflexivity]. f_equal. f_equal.
  apply steps_of_all; [apply scheduler_steps_app|].
  intros u la. rewrite scheduler_steps_call, (held_once_count _ _ _ Hr). reflexivity.
Qed.

Lemma scheduler_position_is_total_steps_witness :
  held_once same_scheduler (SchedulerRef 1) (schedulers_to_dict Samples.schedulers0) = true
  /\ exists sched,
       Warmup.setup_schedulers Samples.config0
         {| Warmup.optimizers_generator := OptimizerRef 1 |} Samples.world0
       = (Samples.world0, Ok {| Warmup.schedulers_generator := Some sched |})
       /\ Warmup.last_epoch sched = total_steps Samples.world0
       /\ let w' := after_calls Samples.window3 Samples.models0 Samples.optimizers0
                      Samples.schedulers0 Samples.world0 in
          let sched' := replay (SchedulerRef 1)
                          (calls_of_all Samples.window3 Samples.models0
                             Samples.optimizers0 Samples.schedulers0) sched in
          Warmup.last_epoch sched' = total_steps w'
          /\ Warmup.total_epoch sched' = Config.warmup_updates Samples.config0.
Proof.
  split; [reflexivity|].
  exact (scheduler_position_is_total_steps Samples.config0
           {| Warmup.optimizers_generator := OptimizerRef 1 |} (SchedulerRef 1)
           Samples.models0 Samples.optimizers0 Samples.schedulers0 Samples.world0
           Samples.window3 eq_refl).
Defined.

End LedgerFacts.

(** ** More on model assembly *)

Module SetupMore.

Import Config Torch Setup SetupFacts Saving.

Lemma load_state_dict_keeps m sd m' :
  load_state_dict m sd = Ok m' ->
  training m' = training m /\ requires_grad m' = requires_grad m
  /\ device_of m' = device_of m /\ history m' = history m ++ [OpLoad]
  /\ state_dict m' = sd.
Proof.
  intros H. apply load_state_dict_inv in H as (d & -> & _ & Hd & ->).
  repeat split. unfold state_dict. cbn [weights]. f_equal. apply tensors_of_full, Hd.
Qed.

Lemma load_model_keeps env m id m' :
  load_model env m id = Ok m' ->
  training m' = training m /\ requires_grad m' = requires_grad m
  /\ device_of m' = device_of m
  /\ (history m' = history m \/ history m' = history m ++ [OpLoad])
  /\ match experiment_checkpoints env !! id with
     | Some ckpt => state_dict m' = ckpt
     | None => m' = m
     end.
Proof.
  unfold load_model. destruct (experiment_checkpoints env !! id) as [ckpt|].
  - intros H. apply load_state_dict_keeps in H as (? & ? & ? & ? & ?). auto 10.
  - intros [= <-]. auto 10.
Qed.

(** What a successful [restore_generator] did. *)
Lemma restore_generator_inv env config g0 w w' g :
  restore_generator env config g0 w = (w', Ok g) ->
  exists g1,
    match generator_checkpoint_path config with
    | Some path =>
        exists ckpt, torch_load env path = Ok ckpt /\ load_state_dict g0 ckpt = Ok g1
    | None => g1 = g0
    end
    /\ load_model env g1 "generator" = Ok g.
Proof.
  unfold restore_generator. intros H.
  apply PyFacts.bind_ok_inv in H as (w1 & g1 & H1 & H).
  apply PyFacts.lift_ok_inv in H as [H _]. exists g1. split; [|exact H].
  destruct (generator_checkpoint_path config) as [path|].
  - apply PyFacts.bind_ok_inv in H1 as (w2 & ckpt & Hl & H1).
    apply PyFacts.lift_ok_inv in Hl as [Hl ->].
    apply PyFacts.lift_ok_inv in H1 as [H1 _]. eauto.
  - apply PyFacts.ret_ok_inv in H1 as [<- _]. reflexivity.
Qed.

(** The generator of a returned bundle, traced back to its construction. *)
Lemma generator_of_bundle env config w w' models :
  setup_models env config w = (w', Ok models) ->
  exists kw g1,
    let g0 := to_ (new_module env (StageC kw)) (device env) in
    match generator_checkpoint_path config with
    | Some path =>
        exists ckpt, torch_load env path = Ok ckpt /\ load_state_dict g0 ckpt = Ok g1
    | None => g1 = g0
    end
    /\ load_model env g1 "generator" = Ok (network (generator models)).
Proof.
  intros H.
  apply setup_models_inv in H
    as (ef & pv & g0 & e0 & g & ema & _ & _ & H3 & H4 & _ & _ & ->).
  cbn [generator]. rewrite network_wrap_generator.
  apply new_generators_inv in H3 as (kw & _ & -> & _).
  apply restore_generator_inv in H4 as (g1 & H4 & H5).
  exists kw, g1. split; assumption.
Qed.

(** X7. The generator that [setup_models] returns is left trainable: it is
    in training mode, its parameters track gradients, and nothing but moves
    to the device and loads of weights was ever called on it. *)
Theorem setup_models_keeps_generator_trainable env config w w' models :
  setup_models env config w = (w', Ok models) ->
  let g := network (generator models) in
  training g = true /\ requires_grad g = true
  /\ forall o, In o (history g) -> o = OpTo (device env) \/ o = OpLoad.
Proof.
  intros H g. apply generator_of_bundle in H as (kw & g1 & H1 & H2).
  fold g in H2. apply load_model_keeps in H2 as (Ht & Hr & _ & Hh & _).
  assert (Hg1 : training g1 = true /\ requires_grad g1 = true
                /\ forall o, In o (history g1) -> o = OpTo (device env) \/ o = OpLoad).
  { destruct (generator_checkpoint_path config) as [path|].
    - destruct H1 as (ckpt & _ & H1).
      apply load_state_dict_keeps in H1 as (-> & -> & _ & -> & _).
      repeat split. intros o Ho. apply in_app_or in Ho as [Ho|Ho]; simpl in Ho;
        intuition.
    - subst g1. repeat split. intros o Ho. simpl in Ho. intuition. }
  destruct Hg1 as (Ht1 & Hr1 & Hh1).
  rewrite Ht, Hr. repeat split; try assumption.
  intros o Ho. destruct Hh as [Hh|Hh]; rewrite Hh in Ho; [auto|].
  apply in_app_or in Ho as [Ho|Ho]; [auto|]. simpl in Ho. intuition.
Qed.

Lemma setup_models_keeps_generator_trainable_witness :
  exists models,
    setup_models Samples.env0 Samples.config0 Samples.world0
    = (Samples.world0, Ok models)
    /\ training (network (generator models)) = true
    /\ requires_grad (network (generator models)) = true.
Proof.
  eexists. split.
  - vm_compute. reflexivity.
  - refine (let H := setup_models_keeps_generator_trainable Samples.env0
                       Samples.config0 Samples.world0 Samples.world0 _ _ in
            conj (proj1 H) (proj1 (proj2 H))).
    vm_compute. reflexivity.
Defined.

Lemma setup_frozen_phase_device env (fresh : nn_module) path (w w' : Train.world) m :
  device_of fresh = Some (device env) ->
  (let! ckpt := lift (torch_load env path) in
   let! sd := lift (state_dict_of_checkpoint ckpt) in
   let! loaded := lift (load_state_dict fresh sd) in
   ret (requires_grad_ (eval_ loaded) false)) w = (w', Ok m) ->
  device_of m = Some (device env).
Proof.
  intros Hd H.
  apply PyFacts.bind_ok_inv in H as (? & ? & _ & H).
  apply PyFacts.bind_ok_inv in H as (? & ? & _ & H).
  apply PyFacts.bind_ok_inv in H as (? & loaded & Hl & H).
  apply PyFacts.lift_ok_inv in Hl as [Hl _].
  apply PyFacts.ret_ok_inv in H as [<- _].
  apply load_state_dict_keeps in Hl as (_ & _ & Hl & _). cbn. congruence.
Qed.

(** The EMA shadow of a returned bundle, traced back to its construction. *)
Lemma ema_of_bundle env config w w' models ema :
  setup_models env config w = (w', Ok models) ->
  generator_ema models = Some ema ->
  exists kw init restored,
    load_state_dict (to_ (new_module env (StageC kw)) (device env))
      (state_dict (network (generator models))) = Ok init
    /\ load_model env init "generator_ema" = Ok restored
    /\ network ema = requires_grad_ (eval_ restored) false.
Proof.
  intros H Hema.
  apply setup_models_inv in H
    as (ef & pv & g0 & e0 & g & ema' & _ & _ & H3 & _ & H5 & _ & Hm).
  assert (Hg : network (generator models) = g).
  { rewrite Hm. cbn [generator]. apply network_wrap_generator. }
  assert (He : option_map network (generator_ema models) = ema').
  { rewrite Hm. cbn [generator_ema]. apply network_wrap_ema. }
  rewrite Hema in He. cbn in He. subst ema'.
  apply new_generators_inv in H3 as (kw & _ & _ & ->).
  apply restore_generator_ema_inv in H5.
  destruct (is_not_None (ema_start_iters config)); [|discriminate].
  destruct H5 as (init & restored & Hi & Hr & [= Hn]).
  exists kw, init, restored. rewrite Hg. auto.
Qed.

Lemma setup_models_ema_device_aux env config w w' models :
  setup_models env config w = (w', Ok models) ->
  Forall (fun m => device_of m = Some (device env))
    match generator_ema models with Some e => [network e] | None => [] end.
Proof.
  intros H. destruct (generator_ema models) as [ema|] eqn:E; [|constructor].
  destruct (ema_of_bundle _ _ _ _ _ _ H E) as (kw & init & restored & Hi & Hr & Hn).
  constructor; [|constructor]. rewrite Hn. cbn.
  apply load_model_keeps in Hr as (_ & _ & -> & _).
  apply load_state_dict_keeps in Hi as (_ & _ & -> & _). reflexivity.
Qed.

(** X8. Every module of a returned bundle lives on [self.device]: the two
    encoders, the generator, the EMA shadow when there is one, and the three
    CLIP sub-models. *)
Theorem setup_models_puts_all_on_device env config w w' models :
  setup_models env config w = (w', Ok models) ->
  Forall (fun m => device_of m = Some (device env))
    ([effnet models; previewer models; network (generator models)]
     ++ match generator_ema models with Some e => [network e] | None => [] end
     ++ [clip_text_model models; clip_text_model_proj models;
         clip_image_model models]).
Proof.
  intros H.
  pose proof (generator_of_bundle _ _ _ _ _ H) as (kw & g1 & Hg1 & Hg).
  pose proof (setup_models_ema_device_aux env config w w' models H) as Hema.
  apply setup_models_inv in H
    as (ef & pv & g0 & e0 & g & ema & H1 & H2 & _ & _ & _ & _ & Hm).
  assert (Hgd : device_of (network (generator models)) = Some (device env)).
  { apply load_model_keeps in Hg as (_ & _ & -> & _).
    destruct (generator_checkpoint_path config) as [path|].
    - destruct Hg1 as (ckpt & _ & Hl).
      apply load_state_dict_keeps in Hl as (_ & _ & -> & _). reflexivity.
    - subst g1. reflexivity. }
  assert (He : device_of (effnet models) = Some (device env)).
  { rewrite Hm. cbn [effnet]. unfold setup_effnet in H1.
    exact (setup_frozen_phase_device env
             (to_ (new_module env EfficientNetEncoder) (device env))
             _ _ _ _ eq_refl H1). }
  assert (Hp : device_of (previewer models) = Some (device env)).
  { rewrite Hm. cbn [previewer]. unfold setup_previewer in H2.
    exact (setup_frozen_phase_device env
             (to_ (new_module env Previewer) (device env)) _ _ _ _ eq_refl H2). }
  apply Forall_app. split; [|apply Forall_app; split; [exact Hema|]].
  - repeat constructor; assumption.
  - rewrite Hm. repeat constructor.
Qed.

Lemma setup_models_puts_all_on_device_witness :
  exists models,
    setup_models Samples.env0 Samples.config0 Samples.world0
    = (Samples.world0, Ok models)
    /\ Forall (fun m => device_of m = Some (device Samples.env0))
         ([effnet models; previewer models; network (generator models)]
          ++ match generator_ema models with Some e => [network e] | None => [] end
          ++ [clip_text_model models; clip_text_model_proj models;
              clip_image_model models]).
Proof.
  eexists. split.
  - vm_compute. reflexivity.
  - apply (setup_models_puts_all_on_device Samples.env0 Samples.config0
             Samples.world0 Samples.world0).
    vm_compute. reflexivity.
Defined.

(** X9. The generator and the EMA shadow are wrapped for sharding exactly
    when [use_fsdp] is set, both or neither, with the wrap policy of the four
    block classes and [self.device] as the device id. *)
Theorem setup_models_wraps_iff_use_fsdp env config w w' models :
  setup_models env config w = (w', Ok models) ->
  let policy := [ResBlock; AttnBlock; TimestepBlock; FeedForwardBlock] in
  match generator models with
  | FSDP _ p d => use_fsdp config = true /\ p = policy /\ d = device env
  | Plain _ => use_fsdp config = false
  end
  /\ match generator_ema models with
     | Some (FSDP _ p d) => use_fsdp config = true /\ p = policy /\ d = device env
     | Some (Plain _) => use_fsdp config = false
     | None => True
     end.
Proof.
  intros H policy.
  apply setup_models_inv in H
    as (ef & pv & g0 & e0 & g & ema & _ & _ & _ & _ & _ & _ & ->).
  cbn [generator generator_ema]. unfold wrap_fsdp.
  destruct (use_fsdp config), ema; cbn; auto.
Qed.

Lemma setup_models_wraps_iff_use_fsdp_witness :
  exists models,
    setup_models Samples.env0 Samples.config0 Samples.world0
    = (Samples.world0, Ok models)
    /\ match generator models with
       | FSDP _ p d =>
           use_fsdp Samples.config0 = true
           /\ p = [ResBlock; AttnBlock; TimestepBlock; FeedForwardBlock]
           /\ d = device Samples.env0
       | Plain _ => use_fsdp Samples.config0 = false
       end.
Proof.
  eexists. split.
  - vm_compute. reflexivity.
  - match goal with
    | |- context [generator ?m] =>
        exact (proj1 (setup_models_wraps_iff_use_fsdp Samples.env0 Samples.config0
                        Samples.world0 Samples.world0 m
                        ltac:(vm_compute; reflexivity)))
    end.
Defined.

(** X10. A missing checkpoint file of the effnet encoder makes
    [setup_models] raise [FileNotFoundError] for that path, whatever
    [model_version] and the rest of the configuration are; with the encoder
    loaded, a missing previewer file does the same for its path. *)
Theorem setup_models_missing_encoder_file env config w :
  (files env !! effnet_checkpoint_path config = None ->
   setup_models env config w
   = (w, Raise (FileNotFoundError (effnet_checkpoint_path config))))
  /\ (forall ef,
        setup_effnet env config w = (w, Ok ef) ->
        files env !! previewer_checkpoint_path config = None ->
        setup_models env config w
        = (w, Raise (FileNotFoundError (previewer_checkpoint_path config)))).
Proof.
  split.
  - intros H. unfold setup_models, setup_effnet.
    rewrite !PyFacts.run_bind. unfold torch_load. rewrite H. reflexivity.
  - intros ef He H. unfold setup_models.
    rewrite PyFacts.run_bind, He. unfold setup_previewer.
    rewrite !PyFacts.run_bind. unfold torch_load. rewrite H. reflexivity.
Qed.

Lemma setup_models_missing_encoder_file_witness :
  files (without_file "effnet.pt" Samples.env0)
    !! effnet_checkpoint_path (Samples.config_of "7B" None) = None
  /\ setup_models (without_file "effnet.pt" Samples.env0)
       (Samples.config_of "7B" None) Samples.world0
     = (Samples.world0, Raise (FileNotFoundError "effnet.pt")).
Proof.
  split; [reflexivity|].
  apply (proj1 (setup_models_missing_encoder_file
                  (without_file "effnet.pt" Samples.env0)
                  (Samples.config_of "7B" None) Samples.world0)).
  reflexivity.
Defined.

(** X11. [setup_models] reads the checkpoints kept for the experiment only
    under the names that [models_to_save] lists: surroundings that keep the
    same checkpoints under these names give the same outcome. *)
Theorem setup_models_reads_what_is_saved env config w
    (ckpts : gmap string pyobj) :
  (forall id, In id models_to_save ->
              ckpts !! id = experiment_checkpoints env !! id) ->
  setup_models (with_experiment_checkpoints ckpts env) config w
  = setup_models env config w.
Proof.
  intros H.
  assert (Hg : ckpts !! "generator"%string
               = experiment_checkpoints env !! "generator"%string)
    by (apply H; simpl; auto).
  assert (He : ckpts !! "generator_ema"%string
               = experiment_checkpoints env !! "generator_ema"%string)
    by (apply H; simpl; auto).
  unfold setup_models.
  apply bind_ext; [reflexivity|]. intros ef w1.
  apply bind_ext; [reflexivity|]. intros pv w2.
  apply bind_ext; [reflexivity|]. intros gens w3.
  apply bind_ext.
  { unfold restore_generator. apply bind_ext; [reflexivity|]. intros g1 w4.
    unfold lift, load_model, with_experiment_checkpoints.
    cbn [experiment_checkpoints]. rewrite Hg. reflexivity. }
  intros g w4.
  apply bind_ext; [|reflexivity].
  unfold restore_generator_ema. destruct (snd gens) as [fresh|]; [|reflexivity].
  apply bind_ext; [reflexivity|]. intros init w5.
  apply bind_ext; [|reflexivity].
  unfold lift, load_model, with_experiment_checkpoints.
  cbn [experiment_checkpoints]. rewrite He. reflexivity.
Qed.

Lemma setup_models_reads_what_is_saved_witness :
  (forall id, In id models_to_save ->
     ({[ "generator_optim"%string := PInt 1 ]} : gmap string pyobj) !! id
     = experiment_checkpoints Samples.env0 !! id)
  /\ setup_models
       (with_experiment_checkpoints {[ "generator_optim"%string := PInt 1 ]}
          Samples.env0) Samples.config0 Samples.world0
     = setup_models Samples.env0 Samples.config0 Samples.world0.
Proof.
  assert (H : forall id, In id models_to_save ->
     ({[ "generator_optim"%string := PInt 1 ]} : gmap string pyobj) !! id
     = experiment_checkpoints Samples.env0 !! id).
  { intros id [<-|[<-|[]]]; reflexivity. }
  split; [exact H|].
  exact (setup_models_reads_what_is_saved Samples.env0 Samples.config0
           Samples.world0 {[ "generator_optim"%string := PInt 1 ]} H).
Defined.





End SetupMore.

(** ** More on the loss *)

Module LossMore.

Import Config Loss LossLines LossFacts.

Local Open Scope nat_scope.

Section ForwardPassFacts.

Variables batch extras conditions : Type.
Variable super_get_conditions :
  batch -> Setup.ModelsDTO -> extras -> bool -> bool -> bool -> list string
  -> conditions.
Variable images : batch -> tensor4.
Variable effnet_preprocess : extras -> tensor4 -> tensor4.
Variable gdf_diffuse : extras -> tensor4 -> diffused.
Variable call : Torch.nn_module -> tensor4 -> tensor4.
Variable call_generator :
  Torch.model -> tensor4 -> list Qc -> conditions -> tensor4.


End ForwardPassFacts.

(** The loss lines in closed form. *)
Lemma loss_lines_closed (pred tgt : tensor4) (w : list Qc) (N : Z) :
  shape pred = shape tgt -> well_formed pred -> well_formed tgt ->
  length w = batch_size pred ->
  loss_lines pred tgt w N
  = Ok (map (per_sample_mse pred tgt) (seq 0 (batch_size pred)),
        weighted_batch_loss pred tgt w N).
Proof.
  intros Hs Hp Ht Hw. unfold loss_lines.
  destruct (mse_loss_none pred tgt) as [squared|err] eqn:E.
  2:{ unfold mse_loss_none in E. rewrite decide_True in E by exact Hs. discriminate. }
  rewrite (mean_dims_mse pred tgt squared Hs Hp Ht E). unfold mul_1d.
  rewrite decide_True by (rewrite length_map, length_seq; symmetry; exact Hw).
  do 2 f_equal. unfold weighted_batch_loss, mean_of. f_equal. f_equal.
  - apply sum_weighted, Hw.
  - rewrite length_zip_same, length_map, length_seq;
      [reflexivity|rewrite length_map, length_seq; symmetry; exact Hw].
Qed.

Lemma sum_below_zero (n : nat) (f : nat -> Qc) :
  (forall i, i < n -> f i = 0%Qc) -> sum_below n f = 0%Qc.
Proof.
  revert f. induction n as [|n IH]; intros f H; [reflexivity|].
  rewrite sum_below_succ, H by lia. rewrite IH by (intros i Hi; apply H; lia).
  ring.
Qed.

Lemma zero_div (c : Qc) : (0 / c)%Qc = 0%Qc.
Proof. unfold Qcdiv. ring. Qed.

Lemma map_const_repeat {A B} (c : B) (l : list A) (f : A -> B) :
  (forall x, In x l -> f x = c) -> map f l = repeat c (length l).
Proof.
  induction l as [|x l IH]; intros H; [reflexivity|].
  cbn. rewrite H by (left; reflexivity). f_equal. apply IH. intros y Hy. apply H.
  right. exact Hy.
Qed.

(** X15. When the prediction is the target, every per-sample loss is zero
    and so is [loss_adjusted], whatever the loss weights are (one weight per
    sample, a non-empty batch of non-empty samples, a factor that is not
    zero). *)
Theorem loss_is_zero_on_target (pred : tensor4) (w : list Qc) (N : Z) :
  well_formed pred ->
  length w = batch_size pred ->
  0 < batch_size pred ->
  0 < sample_size pred ->
  N <> 0%Z ->
  loss_lines pred pred w N = Ok (repeat 0%Qc (batch_size pred), 0%Qc).
Proof.
  intros Hp Hw _ _ _.
  rewrite (loss_lines_closed pred pred w N eq_refl Hp Hp Hw).
  assert (Hz : forall i, per_sample_mse pred pred i = 0%Qc).
  { intros i. unfold per_sample_mse. rewrite sum_below_zero; [apply zero_div|].
    intros j _. ring. }
  do 2 f_equal.
  - rewrite (map_const_repeat 0%Qc) by (intros; apply Hz).
    rewrite length_seq. reflexivity.
  - unfold weighted_batch_loss. rewrite sum_below_zero.
    + rewrite !zero_div. reflexivity.
    + intros i _. rewrite Hz. ring.
Qed.

Lemma loss_is_zero_on_target_witness :
  well_formed Samples.pred0
  /\ loss_lines Samples.pred0 Samples.pred0 [Samples.q 1 1; Samples.q 1 2] 3
     = Ok (repeat 0%Qc (batch_size Samples.pred0), 0%Qc).
Proof.
  split; [reflexivity|].
  apply loss_is_zero_on_target; try reflexivity; cbn; lia.
Defined.

Lemma square_nonneg (x : Qc) : (0 <= x * x)%Qc.
Proof.
  change (0 <= Qred (x * x))%Q. rewrite Qred_correct.
  destruct x as [[n d] c]. unfold Qle, Qmult. cbn. nia.
Qed.

Lemma inv_nonneg (x : Qc) : (0 <= x)%Qc -> (0 <= / x)%Qc.
Proof.
  intros H. change (0 <= Qred (/ x))%Q. rewrite Qred_correct.
  apply Qinv_le_0_compat, H.
Qed.

Lemma of_Z_nonneg (z : Z) : (0 <= z)%Z -> (0 <= of_Z z)%Qc.
Proof.
  intros H. change (0 <= Qred (inject_Z z))%Q. rewrite Qred_correct.
  unfold Qle. cbn. lia.
Qed.

Lemma of_nat_nonneg (n : nat) : (0 <= of_nat n)%Qc.
Proof. apply (of_Z_nonneg (Z.of_nat n)). lia. Qed.

Lemma div_nonneg (x c : Qc) : (0 <= x)%Qc -> (0 <= c)%Qc -> (0 <= x / c)%Qc.
Proof.
  intros Hx Hc. unfold Qcdiv. apply Qcmult_nonneg_nonneg; [exact Hx|].
  apply inv_nonneg, Hc.
Qed.

Lemma sum_nonneg (l : list Qc) : Forall (fun x => (0 <= x)%Qc) l -> (0 <= sum l)%Qc.
Proof.
  induction 1 as [|x l Hx _ IH]; [apply Qcle_refl|].
  cbn. apply Qcplus_nonneg_nonneg; assumption.
Qed.

Lemma mean_nonneg (l : list Qc) :
  Forall (fun x => (0 <= x)%Qc) l -> (0 <= mean_of l)%Qc.
Proof.
  intros H. unfold mean_of. apply div_nonneg; [apply sum_nonneg, H|apply of_nat_nonneg].
Qed.

Lemma Forall_take_drop (P : Qc -> Prop) (n k : nat) (l : list Qc) :
  Forall P l -> Forall P (take n (drop k l)).
Proof.
  intros H. apply Forall_take, Forall_drop, H.
Qed.

Lemma Forall_zip_with (P : Qc -> Prop) (f : Qc -> Qc -> Qc) (a b : list Qc) :
  (forall x y, In x a -> In y b -> P (f x y)) -> Forall P (zip_with f a b).
Proof.
  revert b. induction a as [|x a IH]; intros b H; [constructor|].
  destruct b as [|y b]; [constructor|].
  cbn. constructor; [apply H; left; reflexivity|].
  apply IH. intros x' y' Hx Hy. apply H; right; assumption.
Qed.

(** X16. No per-sample loss that [forward_pass]'s loss lines return is
    negative; with loss weights that are not negative and a positive
    accumulation factor, [loss_adjusted] is not negative either. *)
Theorem losses_are_nonnegative (pred tgt : tensor4) (w : list Qc) (N : Z)
    (loss : list Qc) (adjusted : Qc) :
  loss_lines pred tgt w N = Ok (loss, adjusted) ->
  Forall (fun x => (0 <= x)%Qc) loss
  /\ (Forall (fun x => (0 <= x)%Qc) w -> (0 < N)%Z -> (0 <= adjusted)%Qc).
Proof.
  unfold loss_lines.
  destruct (mse_loss_none pred tgt) as [squared|err] eqn:E; [|discriminate].
  assert (Hsq : Forall (fun x => (0 <= x)%Qc) (data squared)).
  { unfold mse_loss_none in E. destruct (decide _); [|discriminate].
    injection E as <-. cbn [data]. apply Forall_zip_with.
    intros x y _ _. apply square_nonneg. }
  assert (Hloss : Forall (fun x => (0 <= x)%Qc) (mean_dims_1_2_3 squared)).
  { unfold mean_dims_1_2_3. rewrite chunks_spec, map_map.
    apply Forall_forall. intros x Hx. apply in_map_iff in Hx as (i & <- & _).
    apply mean_nonneg, Forall_take_drop, Hsq. }
  destruct (mul_1d (mean_dims_1_2_3 squared) w) as [weighted|err] eqn:Em;
    [|discriminate].
  intros [= <- <-]. split; [exact Hloss|].
  intros Hw HN. apply div_nonneg; [|apply of_Z_nonneg; lia].
  apply mean_nonneg.
  assert (Hall : forall x y, In x (mean_dims_1_2_3 squared) -> In y w ->
                             (0 <= x * y)%Qc).
  { intros x y Hx Hy. apply Qcmult_nonneg_nonneg.
    - exact (proj1 (Forall_forall _ _) Hloss x Hx).
    - exact (proj1 (Forall_forall _ _) Hw y Hy). }
  unfold mul_1d in Em. destruct (decide _).
  - injection Em as <-. apply Forall_zip_with. exact Hall.
  - destruct (mean_dims_1_2_3 squared) as [|x [|x' l]] eqn:El.
    + destruct w as [|y [|y' w']]; try discriminate. injection Em as <-.
      constructor.
    + injection Em as <-. apply Forall_forall. intros z Hz.
      apply in_map_iff in Hz as (y & <- & Hy). apply Hall; [left; reflexivity|exact Hy].
    + destruct w as [|y [|y' w']]; try discriminate. injection Em as <-.
      apply Forall_forall. intros z Hz.
      change (In z (map (fun x0 => (x0 * y)%Qc) (x :: x' :: l))) in Hz.
      apply in_map_iff in Hz as (x0 & <- & Hx0). apply Hall; [exact Hx0|left; reflexivity].
Qed.

Lemma losses_are_nonnegative_witness :
  exists loss adjusted,
    loss_lines Samples.pred0 Samples.target0 [Samples.q 1 1; Samples.q 1 2] 3
    = Ok (loss, adjusted)
    /\ Forall (fun x => (0 <= x)%Qc) loss.
Proof.
  eexists. eexists. split.
  - rewrite (loss_lines_closed Samples.pred0 Samples.target0 _ 3) by reflexivity.
    reflexivity.
  - refine (proj1 (losses_are_nonnegative Samples.pred0 Samples.target0
                     [Samples.q 1 1; Samples.q 1 2] 3 _ _ _)).
    rewrite (loss_lines_closed Samples.pred0 Samples.target0 _ 3) by reflexivity.
    reflexivity.
Defined.

Lemma div_one (x : Qc) : (x / of_Z 1)%Qc = x.
Proof. change (of_Z 1) with 1%Qc. unfold Qcdiv. rewrite <- (Qcmult_1_r x) at 2. f_equal. Qed.

Lemma sum_map_div (c : Qc) (l : list Qc) :
  sum (map (fun x => (x / c)%Qc) l) = (sum l / c)%Qc.
Proof.
  induction l as [|x l IH].
  - change (0%Qc = (0 / c)%Qc). unfold Qcdiv. ring.
  - change ((x / c + sum (map (fun x => (x / c)%Qc) l))%Qc = ((x + sum l) / c)%Qc).
    rewrite IH. unfold Qcdiv. ring.
Qed.

(** The two results of the loss lines for one input and two factors. *)
Lemma loss_lines_factor (i : loss_input) (c : Z) (out out1 : list Qc * Qc) :
  loss_lines_of c i = Ok out -> loss_lines_of 1 i = Ok out1 ->
  fst out = fst out1 /\ snd out = (snd out1 / of_Z c)%Qc.
Proof.
  unfold loss_lines_of, loss_lines.
  destruct (mse_loss_none (li_pred i) (li_target i)) as [squared|]; [|discriminate].
  destruct (mul_1d (mean_dims_1_2_3 squared) (li_weight i)) as [weighted|];
    [|discriminate].
  intros [= <-] [= <-]. cbn [fst snd]. rewrite div_one. split; reflexivity.
Qed.

(** X17. Dividing by [grad_accum_steps] makes the adjusted losses of a
    window add up to the mean of its micro-batches' losses: for [N] inputs
    run through the loss lines with factor [N], the sum of the [N] adjusted
    losses is the mean of the losses the same inputs give with factor 1, and
    the per-sample losses do not depend on the factor. *)
Theorem adjusted_losses_sum_to_mean (ins : list loss_input)
    (outs outs1 : list (list Qc * Qc)) :
  Forall2 (fun i out => loss_lines_of (Z.of_nat (length ins)) i = Ok out) ins outs ->
  Forall2 (fun i out => loss_lines_of 1 i = Ok out) ins outs1 ->
  sum (map snd outs) = mean_of (map snd outs1)
  /\ map fst outs = map fst outs1.
Proof.
  intros H H1.
  assert (Hgen : forall c,
            Forall2 (fun i out => loss_lines_of c i = Ok out) ins outs ->
            map snd outs = map (fun x => (x / of_Z c)%Qc) (map snd outs1)
            /\ map fst outs = map fst outs1).
  { intros c Hc. clear H. revert outs1 H1.
    induction Hc as [|i out ins' outs' Hi _ IH]; intros outs1 H1.
    - inversion H1; subst. split; reflexivity.
    - inversion H1 as [|? out1 ? outs1' Hi1 H1']; subst.
      destruct (loss_lines_factor i c out out1 Hi Hi1) as [Hf Hs].
      destruct (IH _ H1') as [IHs IHf].
      cbn [map]. rewrite Hf, Hs, IHs, IHf. split; reflexivity. }
  destruct (Hgen _ H) as [Hs Hf]. split; [|exact Hf].
  rewrite Hs, sum_map_div. unfold mean_of. rewrite length_map.
  rewrite <- (Forall2_length H1). reflexivity.
Qed.

Lemma adjusted_losses_sum_to_mean_witness :
  exists outs outs1,
    Forall2 (fun i out => loss_lines_of (Z.of_nat (length [Samples.input0; Samples.input0])) i
                          = Ok out)
      [Samples.input0; Samples.input0] outs
    /\ Forall2 (fun i out => loss_lines_of 1 i = Ok out)
         [Samples.input0; Samples.input0] outs1
    /\ sum (map snd outs) = mean_of (map snd outs1).
Proof.
  assert (H : forall c,
            loss_lines_of c Samples.input0
            = Ok (map (per_sample_mse Samples.pred0 Samples.target0) (seq 0 2),
                  weighted_batch_loss Samples.pred0 Samples.target0
                    [Samples.q 1 1; Samples.q 1 2] c)).
  { intros c. unfold loss_lines_of. cbn [Samples.input0 li_pred li_target li_weight].
    rewrite loss_lines_closed by reflexivity. reflexivity. }
  eexists. eexists.
  assert (Ha : Forall2 (fun i out => loss_lines_of (Z.of_nat (length [Samples.input0; Samples.input0])) i = Ok out)
                 [Samples.input0; Samples.input0]
                 [(map (per_sample_mse Samples.pred0 Samples.target0) (seq 0 2),
                   weighted_batch_loss Samples.pred0 Samples.target0
                     [Samples.q 1 1; Samples.q 1 2] 2);
                  (map (per_sample_mse Samples.pred0 Samples.target0) (seq 0 2),
                   weighted_batch_loss Samples.pred0 Samples.target0
                     [Samples.q 1 1; Samples.q 1 2] 2)]).
  { repeat constructor; apply H. }
  assert (Hb : Forall2 (fun i out => loss_lines_of 1 i = Ok out)
                 [Samples.input0; Samples.input0]
                 [(map (per_sample_mse Samples.pred0 Samples.target0) (seq 0 2),
                   weighted_batch_loss Samples.pred0 Samples.target0
                     [Samples.q 1 1; Samples.q 1 2] 1);
                  (map (per_sample_mse Samples.pred0 Samples.target0) (seq 0 2),
                   weighted_batch_loss Samples.pred0 Samples.target0
                     [Samples.q 1 1; Samples.q 1 2] 1)]).
  { repeat constructor; apply H. }
  split; [exact Ha|]. split; [exact Hb|].
  exact (proj1 (adjusted_losses_sum_to_mean _ _ _ Ha Hb)).
Defined.

End LossMore.

(** ** More on conditioning fields *)

Module ConditionsMore.

Import Conditions.

(** X18. A request that names at least one field is passed to the parent
    as it is, with the three flags unchanged and no default field added; and
    asking for the list that [get_conditions] passes on changes nothing. *)
Theorem get_conditions_passes_requests_on
    (batch models extras conditions : Type)
    (super_get_conditions :
       batch -> models -> extras -> bool -> bool -> bool -> list string -> conditions)
    (b : batch) (m : models) (e : extras)
    (is_eval is_unconditional eval_image_embeds : bool) :
  (forall field fields,
     get_conditions _ _ _ _ super_get_conditions b m e is_eval is_unconditional
       eval_image_embeds (Some (field :: fields))
     = super_get_conditions b m e is_eval is_unconditional eval_image_embeds
         (field :: fields))
  /\ forall return_fields,
       get_conditions _ _ _ _ super_get_conditions b m e is_eval is_unconditional
         eval_image_embeds (Some (or_ return_fields default_return_fields))
       = get_conditions _ _ _ _ super_get_conditions b m e is_eval is_unconditional
           eval_image_embeds return_fields.
Proof.
  split; [reflexivity|].
  intros [[|f fs]|]; reflexivity.
Qed.

End ConditionsMore.

(** ** The entry point *)

Module LaunchFacts.

Import Launch.

(** X19. Without [SLURM_LOCALID] in the environment the script fails with
    a [TypeError] from [int(None)], whatever its arguments are and however
    strings are read as integers; with a value that is no integer it fails
    with a [ValueError].  Either way the launch line was printed first and
    nothing else was. *)
Theorem main_needs_a_local_rank (int_of_str : string -> option Z)
    (argv : list string) (environ : gmap string string) (out : list string) :
  (environ !! "SLURM_LOCALID"%string = None ->
   main int_of_str argv environ out
   = (out ++ ["Launching Script"%string],
      Raise (TypeError
        "int() argument must be a string, a bytes-like object or a real number, not 'NoneType'")))
  /\ (forall v,
        environ !! "SLURM_LOCALID"%string = Some v ->
        int_of_str v = None ->
        main int_of_str argv environ out
        = (out ++ ["Launching Script"%string],
           Raise (ValueError "invalid literal for int() with base 10"))).
Proof.
  split.
  - intros H. unfold main. rewrite PyFacts.run_bind. cbn [print modify].
    rewrite PyFacts.run_bind, H. reflexivity.
  - intros v H Hv. unfold main. rewrite PyFacts.run_bind. cbn [print modify].
    rewrite PyFacts.run_bind, H. unfold lift, int_. rewrite Hv. reflexivity.
Qed.

Lemma main_needs_a_local_rank_witness :
  (∅ : gmap string string) !! "SLURM_LOCALID"%string = None
  /\ main (fun _ => None) ["train_c_xl.py"; "config.yaml"]%string ∅ []
     = (["Launching Script"%string],
        Raise (TypeError
          "int() argument must be a string, a bytes-like object or a real number, not 'NoneType'")).
Proof.
  split; [reflexivity|].
  apply (proj1 (main_needs_a_local_rank (fun _ => None)
                  ["train_c_xl.py"; "config.yaml"]%string ∅ [])).
  reflexivity.
Defined.



End LaunchFacts.
